(** * ModelStep: the step collection composer of SageMaker Pipelines

    A shallow embedding of [src/sagemaker/workflow/model_step.py] and of the
    deferred-expression builders exercised by
    [tests/unit/sagemaker/workflow/test_functions.py], with the properties
    the specification states about them. *)

From Stdlib Require Import ZArith QArith DecimalString DecimalNat.
From stdpp Require Import gmap strings list fin_maps.

#[local] Set Warnings "-register-all".

(** ** Python values and exceptions *)

(** The exceptions the modelled code can raise, with their message (the
    offending key for the lookup errors, the missing attribute for an
    attribute error). *)
Inductive exn :=
| TypeError (msg : string)
| ValueError (msg : string)
| KeyError (key : string)
| IndexError (msg : string)
| AttributeError (attr : string).

(** A computation either returns or raises. *)
Inductive result (A : Type) :=
| Ok (a : A)
| Raise (e : exn).
Arguments Ok {A} a.
Arguments Raise {A} e.

#[global] Instance result_ret : MRet result := λ A a, Ok a.
#[global] Instance result_bind : MBind result := λ A B k m,
  match m with
  | Ok a => k a
  | Raise e => Raise e
  end.

(** Request payloads are JSON-like trees: dictionaries keyed by strings,
    lists, scalars, and property references ([Properties] objects, whose
    only observable content is their path). *)
Inductive pyval :=
| VNone
| VBool (b : bool)
| VInt (z : Z)
| VStr (s : string)
| VProp (path : string)
| VList (l : list pyval)
| VDict (d : gmap string pyval).

(** A subscript: [x["k"]] or [x[i]]. *)
Inductive key :=
| KStr (s : string)
| KIdx (i : nat).

(** Python truthiness of a payload value. *)
Definition truthy (v : pyval) : bool :=
  match v with
  | VNone => false
  | VBool b => b
  | VInt z => negb (z =? 0)%Z
  | VStr s => negb (String.eqb s "")
  | VProp _ => true
  | VList l => negb (Nat.eqb (length l) 0)
  | VDict d => negb (Nat.eqb (size d) 0)
  end.

Definition not_subscriptable : exn := TypeError "object is not subscriptable".
Definition no_item_assignment : exn :=
  TypeError "object does not support item assignment".

(** [v[k]]: a missing dictionary key raises [KeyError], a list index out of
    range raises [IndexError], subscripting a scalar raises [TypeError]. *)
Definition getitem (v : pyval) (k : key) : result pyval :=
  match v, k with
  | VDict d, KStr s =>
      match d !! s with
      | Some x => Ok x
      | None => Raise (KeyError s)
      end
  | VDict d, KIdx i => Raise (KeyError "<int>")
  | VList l, KIdx i =>
      match l !! i with
      | Some x => Ok x
      | None => Raise (IndexError "list index out of range")
      end
  | VList l, KStr s => Raise (TypeError "list indices must be integers")
  | VStr t, KIdx i =>
      match String.get i t with
      | Some c => Ok (VStr (String c EmptyString))
      | None => Raise (IndexError "string index out of range")
      end
  | VStr t, KStr s => Raise (TypeError "string indices must be integers")
  | _, _ => Raise not_subscriptable
  end.

(** [v["s"] = x]: only dictionaries support assignment under a string
    key. *)
Definition setitem (v : pyval) (s : string) (x : pyval) : result pyval :=
  match v with
  | VDict d => Ok (VDict (<[s := x]> d))
  | VList l => Raise (TypeError "list indices must be integers")
  | _ => Raise no_item_assignment
  end.

(** Writing a child back into its parent.  Python mutates the child in
    place through a reference; in a tree of values the parent is rebuilt
    around the new child. *)
Definition put (v : pyval) (k : key) (x : pyval) : pyval :=
  match v, k with
  | VDict d, KStr s => VDict (<[s := x]> d)
  | VList l, KIdx i => VList (<[i := x]> l)
  | _, _ => v
  end.

(** [c = v[k1]...[kn]; f c] where [f] mutates [c] in place. *)
Fixpoint update_path (p : list key) (f : pyval → result pyval) (v : pyval)
  : result pyval :=
  match p with
  | [] => f v
  | k :: p' =>
      x ← getitem v k;
      x' ← update_path p' f x;
      mret (put v k x')
  end.

(** Reading along a path of subscripts. *)
Fixpoint lookup_path (p : list key) (v : pyval) : result pyval :=
  match p with
  | [] => Ok v
  | k :: p' => x ← getitem v k; lookup_path p' x
  end.

(** ** The objects [ModelStep] receives *)

(** Modelled from the spec: the session classes (sagemaker/session.py and
    sagemaker/workflow/pipeline_context.py are not among the sources).  A
    [sagemaker_session] attribute holds [None], an immediate-execution
    [Session], or the pipeline-building [PipelineSession]. *)
Inductive Session :=
| PlainSession
| PipelineSession.

(** Modelled from the spec: a retry policy (sagemaker/workflow/retry.py is
    not among the sources), a value the composer attaches to steps and
    never reads. *)
Record RetryPolicy := {
  exception_types : list string;
  max_attempts : nat;
}.

(** [retry_policies]: [None], one list for every sub-step, or a dictionary
    with one list per kind of sub-step. *)
Inductive RetryPolicies :=
| RetryNone
| RetryList (l : list RetryPolicy)
| RetryDict (d : gmap string (list RetryPolicy)).

(** An element of [depends_on]: a step name, a [Step] or a
    [StepCollection]. *)
Inductive Dependency :=
| DepName (s : string)
| DepStep (s : string)
| DepCollection (s : string).

(** Modelled from the spec: [sagemaker.Model], the single-container model
    (sagemaker/model.py is not among the sources), with the attributes the
    composer reads; [model_id] is what [id(model)] returns. *)
Record Model := {
  model_id : nat;
  model_name : option string;
  model_sagemaker_session : option Session;
  model_role : option string;
  model_data : pyval;
  entry_point : option string;
  source_dir : option string;
  dependencies : option (list string);
  model_vpc_config : option (gmap string pyval);
}.

(** Modelled from the spec: [sagemaker.PipelineModel], the multi-container
    model (sagemaker/pipeline.py is not among the sources), with the
    attributes the composer reads. *)
Record PipelineModel := {
  models : list Model;
  pm_sagemaker_session : option Session;
  pm_role : option string;
  pm_vpc_config : option (gmap string pyval);
}.

(** What [step_args.model] may refer to.  Of an object of any other class
    the constructor reads [sagemaker_session] only; the object has the
    attribute ([OtherObject]) or, like [None], has not
    ([ObjectWithoutSession]). *)
Inductive ModelRef :=
| IsPipelineModel (pm : PipelineModel)
| IsModel (m : Model)
| OtherObject (session : option Session)
| ObjectWithoutSession.

(** The session a model object holds, if it holds one. *)
Definition sagemaker_session (r : ModelRef) : option Session :=
  match r with
  | IsPipelineModel pm => pm_sagemaker_session pm
  | IsModel m => model_sagemaker_session m
  | OtherObject s => s
  | ObjectWithoutSession => None
  end.

(** [r.sagemaker_session]: reading the attribute of an object that has
    none raises [AttributeError]. *)
Definition getattr_sagemaker_session (r : ModelRef) : result (option Session) :=
  match r with
  | ObjectWithoutSession => Raise (AttributeError "sagemaker_session")
  | _ => Ok (sagemaker_session r)
  end.

Definition role (r : ModelRef) : option string :=
  match r with
  | IsPipelineModel pm => pm_role pm
  | IsModel m => model_role m
  | OtherObject _ | ObjectWithoutSession => None
  end.

Definition vpc_config (r : ModelRef) : option (gmap string pyval) :=
  match r with
  | IsPipelineModel pm => pm_vpc_config pm
  | IsModel m => model_vpc_config m
  | OtherObject _ | ObjectWithoutSession => None
  end.

(** Modelled from the spec: [_ModelStepArguments]
    (sagemaker/workflow/pipeline_context.py is not among the sources).
    Each request is [None] or a dictionary, which the composer patches in
    place; [need_runtime_repack] is a set of object identities. *)
Record ModelStepArguments := {
  model : ModelRef;
  create_model_package_request : pyval;
  create_model_request : pyval;
  need_runtime_repack : gset nat;
}.

(** The [step_args] argument: any object, possibly a
    [_ModelStepArguments]. *)
Inductive StepArgs :=
| NotModelStepArguments
| IsModelStepArguments (a : ModelStepArguments).

(** ** The steps a [ModelStep] holds *)

(** Modelled from the spec: the step classes [_RepackModelStep],
    [_RegisterModelStep] and [CreateModelStep] (sagemaker/workflow/_utils.py
    and steps.py are not among the sources).  A step is made of the
    arguments it is constructed with; the composer reads back its name
    only. *)
Record RepackModelStep := {
  rp_name : string;
  rp_sagemaker_session : option Session;
  rp_role : option string;
  rp_model_data : pyval;
  rp_entry_point : option string;
  rp_source_dir : option string;
  rp_dependencies : option (list string);
  rp_subnets : pyval;
  rp_security_group_ids : pyval;
  rp_description : string;
  rp_depends_on : option (list Dependency);
  rp_retry_policies : option (list RetryPolicy);
}.

(** The fields [_RegisterModelStep] and [CreateModelStep] share. *)
Record ModelRequestStep := {
  st_name : string;
  st_step_args : pyval;
  st_display_name : option string;
  st_retry_policies : option (list RetryPolicy);
  st_description : option string;
  st_depends_on : option (list Dependency);
}.

Inductive Step :=
| Repack (s : RepackModelStep)
| RegisterModel (s : ModelRequestStep)
| CreateModel (s : ModelRequestStep).

(** Modelled from the spec: [Step.add_depends_on] of
    sagemaker/workflow/steps.py, which is not among the sources.  The
    step's dependency edges become the given ones; given no edges the
    attribute is left as it was. *)
Definition add_depends_on (s : ModelRequestStep)
    (step_names : option (list Dependency)) : ModelRequestStep :=
  match step_names with
  | None | Some [] => s
  | Some l =>
      {| st_name := st_name s;
         st_step_args := st_step_args s;
         st_display_name := st_display_name s;
         st_retry_policies := st_retry_policies s;
         st_description := st_description s;
         st_depends_on := Some (default [] (st_depends_on s) ++ l) |}
  end.

(** The explicit dependency edges an optional list stands for. *)
Definition edges (d : option (list Dependency)) : list Dependency :=
  default [] d.

(** Modelled from the spec: the [properties] of a repack step
    (sagemaker/workflow/properties.py is not among the sources):
    [properties.ModelArtifacts.S3ModelArtifacts] is a property reference
    whose path starts at the step's name. *)
Definition S3ModelArtifacts (s : RepackModelStep) : pyval :=
  VProp ("Steps." +:+ rp_name s +:+ ".ModelArtifacts.S3ModelArtifacts").

(** ** [ModelStep] *)

Definition NEED_RUNTIME_REPACK := "need_runtime_repack".
Definition _CREATE_MODEL_RETRY_POLICIES := "create_model_retry_policies".
Definition _REGISTER_MODEL_RETRY_POLICIES := "register_model_retry_policies".
Definition _REPACK_MODEL_RETRY_POLICIES := "repack_model_retry_policies".
Definition _REGISTER_MODEL_NAME_BASE := "RegisterModel".
Definition _CREATE_MODEL_NAME_BASE := "CreateModel".
Definition _REPACK_MODEL_NAME_BASE := "RepackModel".

(** The attributes of a [ModelStep].  The source's [_model],
    [_create_model_args], [_register_model_args] and [_need_runtime_repack]
    are further references to the objects held by [step_args]; they are the
    projections below, so that a patch of a request is seen through both
    names. *)
Record ModelStep := {
  name : string;
  step_args : ModelStepArguments;
  depends_on : option (list Dependency);
  retry_policies : RetryPolicies;
  display_name : option string;
  description : option string;
  steps : list Step;
  _create_model_retry_policies : option (list RetryPolicy);
  _register_model_retry_policies : option (list RetryPolicy);
  _repack_model_retry_policies : option (list RetryPolicy);
}.

Definition _model (self : ModelStep) : ModelRef := model (step_args self).
Definition _create_model_args (self : ModelStep) : pyval :=
  create_model_request (step_args self).
Definition _register_model_args (self : ModelStep) : pyval :=
  create_model_package_request (step_args self).
Definition _need_runtime_repack (self : ModelStep) : gset nat :=
  need_runtime_repack (step_args self).

(** [self.steps.append(s)] *)
Definition append_step (self : ModelStep) (s : Step) : ModelStep :=
  {| name := name self;
     step_args := step_args self;
     depends_on := depends_on self;
     retry_policies := retry_policies self;
     display_name := display_name self;
     description := description self;
     steps := steps self ++ [s];
     _create_model_retry_policies := _create_model_retry_policies self;
     _register_model_retry_policies := _register_model_retry_policies self;
     _repack_model_retry_policies := _repack_model_retry_policies self |}.

(** The arguments and the object after the dictionaries behind [step_args]
    were mutated. *)
Definition with_args (a : ModelStepArguments) (create package : pyval)
  : ModelStepArguments :=
  {| model := model a;
     create_model_package_request := package;
     create_model_request := create;
     need_runtime_repack := need_runtime_repack a |}.

Definition with_requests (self : ModelStep) (create package : pyval)
  : ModelStep :=
  {| name := name self;
     step_args := with_args (step_args self) create package;
     depends_on := depends_on self;
     retry_policies := retry_policies self;
     display_name := display_name self;
     description := description self;
     steps := steps self;
     _create_model_retry_policies := _create_model_retry_policies self;
     _register_model_retry_policies := _register_model_retry_policies self;
     _repack_model_retry_policies := _repack_model_retry_policies self |}.

(** Truthiness of a set, of an optional string and of an optional
    dictionary. *)
Definition truthy_set (X : gset nat) : bool := negb (bool_decide (X = ∅)).

Definition truthy_str (s : option string) : bool :=
  match s with
  | Some t => negb (String.eqb t "")
  | None => false
  end.

Definition truthy_map (d : option (gmap string pyval)) : bool :=
  match d with
  | Some m => negb (Nat.eqb (size m) 0)
  | None => false
  end.

(** [a or b] on optional objects and on optional strings. *)
Definition or_obj {A} (a b : option A) : option A :=
  match a with
  | Some _ => a
  | None => b
  end.

Definition or_str (a b : option string) : option string :=
  if truthy_str a then a else b.

(** [str(i)] *)
Definition str_of_nat (i : nat) : string :=
  NilEmpty.string_of_uint (Nat.to_uint i).

(** ["{}-{}".format(a, b)] and ["{}-{}-{}".format(a, b, c)] *)
Definition format2 (a b : string) : string := a +:+ "-" +:+ b.
Definition format3 (a b c : string) : string := a +:+ "-" +:+ b +:+ "-" +:+ c.

(** [model.name or i], already rendered as [format] renders it. *)
Definition name_base (m : Model) (i : nat) : string :=
  match model_name m with
  | Some s => if String.eqb s "" then str_of_nat i else s
  | None => str_of_nat i
  end.

Definition is_PipelineModel (r : ModelRef) : bool :=
  match r with
  | IsPipelineModel _ => true
  | _ => false
  end.

(** [d.get(k, None)] on the VPC configuration. *)
Definition dict_get (d : gmap string pyval) (k : string) : pyval :=
  default VNone (d !! k).

Definition repack_description : string :=
  "Used to repack a model with customer scripts for a register/create model step".

(** Lines 167-183: the repack step built for the model at position [i]. *)
Definition make_repack_step (self : ModelStep) (subnets security_group_ids : pyval)
    (i : nat) (m : Model) : RepackModelStep :=
  {| rp_name := format3 (name self) _REPACK_MODEL_NAME_BASE (name_base m i);
     rp_sagemaker_session :=
       or_obj (sagemaker_session (_model self)) (model_sagemaker_session m);
     rp_role := or_str (role (_model self)) (model_role m);
     rp_model_data := model_data m;
     rp_entry_point := entry_point m;
     rp_source_dir := source_dir m;
     rp_dependencies := dependencies m;
     rp_subnets := subnets;
     rp_security_group_ids := security_group_ids;
     rp_description := repack_description;
     rp_depends_on := depends_on self;
     rp_retry_policies := _repack_model_retry_policies self |}.

Definition set_ModelDataUrl (v : pyval) (container : pyval) : result pyval :=
  setitem container "ModelDataUrl" v.

(** Lines 187-196: find the container of position [i] in the pending
    request and overwrite its [ModelDataUrl] in place. *)
Definition patch_container (self : ModelStep) (i : nat) (v : pyval)
  : result ModelStep :=
  if truthy (_create_model_args self) then
    if is_PipelineModel (_model self) then
      r ← update_path [KStr "Containers"; KIdx i] (set_ModelDataUrl v)
            (create_model_request (step_args self));
      mret (with_requests self r (create_model_package_request (step_args self)))
    else
      r ← update_path [KStr "PrimaryContainer"] (set_ModelDataUrl v)
            (create_model_request (step_args self));
      mret (with_requests self r (create_model_package_request (step_args self)))
  else
    r ← update_path [KStr "InferenceSpecification"; KStr "Containers"; KIdx i]
          (set_ModelDataUrl v) (create_model_package_request (step_args self));
    mret (with_requests self (create_model_request (step_args self)) r).

(** Line 162: [runtime_repack_flg]. *)
Definition runtime_repack_flg (self : ModelStep) (m : Model) : bool :=
  truthy_set (_need_runtime_repack self)
  && bool_decide (model_id m ∈ _need_runtime_repack self).

(** One turn of the loop of lines 161-196. *)
Definition repack_iteration (self : ModelStep) (subnets security_group_ids : pyval)
    (i : nat) (m : Model) : result ModelStep :=
  if runtime_repack_flg self m then
    let repack_model_step := make_repack_step self subnets security_group_ids i m in
    let self := append_step self (Repack repack_model_step) in
    patch_container self i (S3ModelArtifacts repack_model_step)
  else mret self.

(** [for i, model in enumerate(model_list)], from position [i] on. *)
Fixpoint repack_loop (self : ModelStep) (subnets security_group_ids : pyval)
    (i : nat) (model_list : list Model) : result ModelStep :=
  match model_list with
  | [] => mret self
  | m :: rest =>
      self ← repack_iteration self subnets security_group_ids i m;
      repack_loop self subnets security_group_ids (S i) rest
  end.

(** Lines 147-153: the models to look at, if the owning model is of a
    known class. *)
Definition model_list (r : ModelRef) : option (list Model) :=
  match r with
  | IsPipelineModel pm => Some (models pm)
  | IsModel m => Some [m]
  | OtherObject _ | ObjectWithoutSession => None
  end.

(** Lines 155-159: [(security_group_ids, subnets)]. *)
Definition vpc_settings (r : ModelRef) : pyval * pyval :=
  match vpc_config r with
  | Some d =>
      if truthy_map (Some d)
      then (dict_get d "SecurityGroupIds", dict_get d "Subnets")
      else (VNone, VNone)
  | None => (VNone, VNone)
  end.

(** [_append_repack_model_step]; the second component is what was handed
    to [logging.warning]. *)
Definition _append_repack_model_step (self : ModelStep)
  : result (ModelStep * list string) :=
  match model_list (_model self) with
  | None => mret (self, ["No models to repack"])
  | Some model_list =>
      let '(security_group_ids, subnets) := vpc_settings (_model self) in
      self ← repack_loop self subnets security_group_ids 0 model_list;
      mret (self, [])
  end.

(** [_append_register_model_step] *)
Definition _append_register_model_step (self : ModelStep) : ModelStep :=
  let register_model_step :=
    {| st_name := format2 (name self) _REGISTER_MODEL_NAME_BASE;
       st_step_args := _register_model_args self;
       st_display_name := display_name self;
       st_retry_policies := _register_model_retry_policies self;
       st_description := description self;
       st_depends_on := None |} in
  let register_model_step :=
    if negb (truthy_set (_need_runtime_repack self))
    then add_depends_on register_model_step (depends_on self)
    else register_model_step in
  append_step self (RegisterModel register_model_step).

(** [_append_create_model_step] *)
Definition _append_create_model_step (self : ModelStep) : ModelStep :=
  let create_model_step :=
    {| st_name := format2 (name self) _CREATE_MODEL_NAME_BASE;
       st_step_args := _create_model_args self;
       st_display_name := display_name self;
       st_retry_policies := _create_model_retry_policies self;
       st_description := description self;
       st_depends_on := None |} in
  let create_model_step :=
    if negb (truthy_set (_need_runtime_repack self))
    then add_depends_on create_model_step (depends_on self)
    else create_model_step in
  append_step self (CreateModel create_model_step).

(** [retry_policies.get(k, None)] when a dictionary was given, the value
    itself otherwise (lines 97-110). *)
Definition retry_bucket (rp : RetryPolicies) (k : string)
  : option (list RetryPolicy) :=
  match rp with
  | RetryNone => None
  | RetryList l => Some l
  | RetryDict d => d !! k
  end.

Definition is_None (v : pyval) : bool :=
  match v with
  | VNone => true
  | _ => false
  end.

Definition is_PipelineSession (s : option Session) : bool :=
  match s with
  | Some PipelineSession => true
  | _ => false
  end.

Definition step_args_type_error : exn :=
  TypeError ("To correctly configure a ModelStep, "
    +:+ "the step_args must be a `_ModelStepArguments` object generated by "
    +:+ ".create() or .register().").

Definition step_args_value_error : exn :=
  ValueError ("Invalid step_args: either _register_model_args or _create_model_args"
    +:+ " should be provided. They are mutually exclusive. Please use the model's "
    +:+ ".create() or .register() method to generate the step_args under PipelineSession.").

Definition session_type_error : exn :=
  TypeError ("To correctly configure a ModelStep, "
    +:+ "the sagemaker_session of the model must be a PipelineSession object.").

(** Lines 85-110: the object before any step is appended. *)
Definition initial (name : string) (step_args : ModelStepArguments)
    (depends_on : option (list Dependency)) (retry_policies : RetryPolicies)
    (display_name description : option string) : ModelStep :=
  {| name := name;
     step_args := step_args;
     depends_on := depends_on;
     retry_policies := retry_policies;
     display_name := display_name;
     description := description;
     steps := [];
     _create_model_retry_policies :=
       retry_bucket retry_policies _CREATE_MODEL_RETRY_POLICIES;
     _register_model_retry_policies :=
       retry_bucket retry_policies _REGISTER_MODEL_RETRY_POLICIES;
     _repack_model_retry_policies :=
       retry_bucket retry_policies _REPACK_MODEL_RETRY_POLICIES |}.

(** [ModelStep.__init__]: the constructed object and the warnings logged
    on the way, or the exception raised. *)
Definition ModelStep_init (name : string) (step_args : StepArgs)
    (depends_on : option (list Dependency)) (retry_policies : RetryPolicies)
    (display_name description : option string)
  : result (ModelStep * list string) :=
  match step_args with
  | NotModelStepArguments => Raise step_args_type_error
  | IsModelStepArguments step_args =>
      if negb (xorb (is_None (create_model_request step_args))
                    (is_None (create_model_package_request step_args)))
      then Raise step_args_value_error
      else
        session ← getattr_sagemaker_session (model step_args);
        if negb (is_PipelineSession session)
        then Raise session_type_error
        else
        let self :=
          initial name step_args depends_on retry_policies display_name
                  description in
        '(self, warnings) ←
          (if truthy_set (_need_runtime_repack self)
           then _append_repack_model_step self
           else mret (self, []));
        let self :=
          if truthy (_register_model_args self)
          then _append_register_model_step self
          else _append_create_model_step self in
        mret (self, warnings)
  end.

(** ** Deferred expressions *)

(** Python's primitive values.  A float stands for the literal that was
    written; no arithmetic is done on it. *)
Inductive primitive :=
| PBool (b : bool)
| PInt (z : Z)
| PFloat (q : Q)
| PStr (s : string).

(** The JSON-like structure expressions are serialized to. *)
Inductive json :=
| JBool (b : bool)
| JInt (z : Z)
| JFloat (q : Q)
| JStr (s : string)
| JList (l : list json)
| JObject (fields : gmap string json).

Record PropertyFile := {
  pf_name : string;
  pf_output_name : string;
  pf_path : string;
}.

(** The [property_file] argument of [JsonGet]: a name, or a [PropertyFile]
    object. *)
Inductive PropertyFileReference :=
| PropertyFileName (s : string)
| PropertyFileObject (f : PropertyFile).

(** Modelled from the spec: the expression model of
    sagemaker/workflow/functions.py, entities.py, parameters.py,
    properties.py and execution_variables.py, none of which is among the
    sources (only tests/unit/sagemaker/workflow/test_functions.py is).
    An expression is a literal, a parameter reference, a property
    reference, an execution-variable reference, a join of expressions
    under a separator, or a JSON-path extraction from a property file of a
    step. *)
Inductive Expression :=
| Literal (p : primitive)
| ParameterReference (name : string)
| PropertyReference (path : string)
| ExecutionVariableReference (name : string)
| Join (on : string) (values : list Expression)
| JsonGet (step_name : Expression) (property_file : PropertyFileReference)
          (json_path : string).

(** [ExecutionVariables.PIPELINE_EXECUTION_ID] *)
Definition PIPELINE_EXECUTION_ID : Expression :=
  ExecutionVariableReference "PipelineExecutionId".

Definition json_of_primitive (p : primitive) : json :=
  match p with
  | PBool b => JBool b
  | PInt z => JInt z
  | PFloat q => JFloat q
  | PStr s => JStr s
  end.

(** [{"Get": path}] *)
Definition Get (path : string) : json := JObject {[ "Get" := JStr path ]}.

(** The fields of a JSON object. *)
Definition json_fields (j : json) : gmap string json :=
  match j with
  | JObject fields => fields
  | _ => ∅
  end.

(** The file name a property-file reference stands for. *)
Definition file_name (f : PropertyFileReference) : string :=
  match f with
  | PropertyFileName s => s
  | PropertyFileObject f => pf_name f
  end.

Definition invalid_step_name : exn :=
  ValueError "Please give a valid step name as a string".

(** Modelled from the spec: serialization ([.expr]) of an expression, of
    sagemaker/workflow/functions.py and its siblings, which are not among
    the sources.  Primitives serialize to themselves, references to
    [{"Get": ...}], a join to [{"Std:Join": {"On": on, "Values": [...]}}]
    over the serialized values, and a JSON-path extraction to
    [{"Std:JsonGet": {"PropertyFile": {"Get": ...}, "Path": json_path}}]
    once its step name is found to be a non-empty concrete string. *)
Fixpoint serialize (e : Expression) : result json :=
  match e with
  | Literal p => Ok (json_of_primitive p)
  | ParameterReference name => Ok (Get ("Parameters." +:+ name))
  | PropertyReference path => Ok (Get path)
  | ExecutionVariableReference name => Ok (Get ("Execution." +:+ name))
  | Join on values =>
      vs ← (fix serialize_all (l : list Expression) : result (list json) :=
              match l with
              | [] => Ok []
              | v :: l' =>
                  j ← serialize v;
                  js ← serialize_all l';
                  mret (j :: js)
              end) values;
      mret (JObject {[ "Std:Join" :=
                         JObject {[ "On" := JStr on; "Values" := JList vs ]} ]})
  | JsonGet step_name property_file json_path =>
      match step_name with
      | Literal (PStr s) =>
          if String.eqb s "" then Raise invalid_step_name
          else
            Ok (JObject
                  {[ "Std:JsonGet" :=
                       JObject
                         {[ "PropertyFile" :=
                              Get ("Steps." +:+ s +:+ ".PropertyFiles."
                                   +:+ file_name property_file);
                            "Path" := JStr json_path ]} ]})
      | _ => Raise invalid_step_name
      end
  end.

(** Serialization of the values of a join, one after the other. *)
Fixpoint serialize_values (l : list Expression) : result (list json) :=
  match l with
  | [] => Ok []
  | v :: l' =>
      j ← serialize v;
      js ← serialize_values l';
      mret (j :: js)
  end.

(** The two deferred functions, as opposed to literals and references. *)
Definition is_function (e : Expression) : bool :=
  match e with
  | Join _ _ | JsonGet _ _ _ => true
  | _ => false
  end.

(** Modelled from the spec: [to_string] of [Join] and [JsonGet]
    (sagemaker/workflow/functions.py is not among the sources): a join is
    returned as it is, an extraction becomes the only value of a join with
    the empty separator.  Of the other expressions the specification does
    not say. *)
Definition to_string (e : Expression) : option Expression :=
  match e with
  | Join _ _ => Some e
  | JsonGet _ _ _ => Some (Join "" [e])
  | _ => None
  end.

(** [needle in hay] on strings. *)
Fixpoint contains (needle hay : string) : bool :=
  String.prefix needle hay
  || match hay with
     | EmptyString => false
     | String _ hay' => contains needle hay'
     end.

Section native_operations.
(** What the message of [__str__] goes on to say after its first
    sentence; the tests do not fix it. *)
Variable str_hint : string.

Definition unsupported (operation : string) : string :=
  "Pipeline variables do not support " +:+ operation +:+ " operation.".

(** Modelled from the spec: the native conversions and operators of a
    pipeline variable (sagemaker/workflow/entities.py is not among the
    sources).  [str], [int], [float] and [+] are refused with a type
    error of their own; the string predicates answer [False]. *)
Definition __str__ (self : Expression) : result string :=
  Raise (TypeError (unsupported "__str__" +:+ str_hint)).

Definition __int__ (self : Expression) : result Z :=
  Raise (TypeError (unsupported "__int__")).

Definition __float__ (self : Expression) : result Q :=
  Raise (TypeError (unsupported "__float__")).

Definition __add__ (self other : Expression) : result Expression :=
  Raise (TypeError "Pipeline variables do not support concatenation.").

Definition startswith (self : Expression) (prefix : string) : result bool :=
  Ok false.

Definition endswith (self : Expression) (suffix : string) : result bool :=
  Ok false.
End native_operations.

(** The join of primitives of [test_join_primitives]. *)
Definition primitive_values : list Expression :=
  [Literal (PInt 1); Literal (PStr "a"); Literal (PBool false);
   Literal (PFloat (11 # 10))].

(** ** Vocabulary of the properties *)

#[global] Instance key_eq_dec : EqDecision key.
Proof. solve_decision. Defined.

#[global] Instance exn_eq_dec : EqDecision exn.
Proof. solve_decision. Defined.

(** Two paths part ways: at some depth they carry different subscripts,
    after a common prefix.  Neither leads through the other. *)
Fixpoint diverge (p q : list key) : bool :=
  match p, q with
  | k :: p', k' :: q' => if decide (k = k') then diverge p' q' else true
  | _, _ => false
  end.

(** [enumerate(l, start)] *)
Fixpoint enumerate {A} (start : nat) (l : list A) : list (nat * A) :=
  match l with
  | [] => []
  | x :: l' => (start, x) :: enumerate (S start) l'
  end.

(** The constituent models of the owning model, in container order. *)
Definition constituents (r : ModelRef) : list Model :=
  default [] (model_list r).

(** The constituents, with their position, whose identity the need-repack
    indicator [X] names. *)
Definition flagged_from (X : gset nat) (start : nat) (ml : list Model)
  : list (nat * Model) :=
  filter (λ im, model_id im.2 ∈ X) (enumerate start ml).

Definition flagged (X : gset nat) (ml : list Model) : list (nat * Model) :=
  flagged_from X 0 ml.

(** The three checks of the constructor, as the specification words them:
    the arguments are of the request-argument type, exactly one of the two
    requests is present, and the model's session is the pipeline-building
    one. *)
Definition well_formed (a : ModelStepArguments) : bool :=
  xorb (is_None (create_model_request a))
       (is_None (create_model_package_request a))
  && is_PipelineSession (sagemaker_session (model a)).

Definition malformed (a : StepArgs) : Prop :=
  match a with
  | NotModelStepArguments => True
  | IsModelStepArguments a =>
      ¬ (create_model_request a = VNone ↔ create_model_package_request a ≠ VNone)
      ∨ sagemaker_session (model a) ≠ Some PipelineSession
  end.

(** The errors of the three checks. *)
Definition configuration_error (e : exn) : Prop :=
  e = step_args_type_error ∨ e = step_args_value_error ∨ e = session_type_error.

(** What line 79 raises for a model object that has no session to
    check. *)
Definition missing_session_attribute : exn := AttributeError "sagemaker_session".

(** The errors raised while the arguments are checked (lines 65-83). *)
Definition validation_error (e : exn) : Prop :=
  configuration_error e ∨ e = missing_session_attribute.

(** The request that is present, and in it the path to the container that
    belongs to the constituent at position [i]: the container of the same
    position for a multi-container model, the primary container for a
    single-container create request, the container of the inference
    specification for a register request. *)
Definition pending_request (a : ModelStepArguments) : pyval :=
  if is_None (create_model_request a)
  then create_model_package_request a
  else create_model_request a.

Definition matched_container (a : ModelStepArguments) (i : nat) : list key :=
  if is_None (create_model_request a)
  then [KStr "InferenceSpecification"; KStr "Containers"; KIdx i]
  else match model a with
       | IsPipelineModel _ => [KStr "Containers"; KIdx i]
       | _ => [KStr "PrimaryContainer"]
       end.

Definition is_dict (r : result pyval) : bool :=
  match r with
  | Ok (VDict _) => true
  | _ => false
  end.

(** What the packaging layer owes the composer: the pending request holds a
    container dictionary for every constituent named by the indicator. *)
Definition has_container (a : ModelStepArguments) (i : nat) : bool :=
  is_dict (lookup_path (matched_container a i) (pending_request a)).

Definition patchable (a : ModelStepArguments) : bool :=
  forallb (λ im, has_container a im.1)
          (flagged (need_runtime_repack a) (constituents (model a))).

(** Modelled from the spec: what the packaging layer hands over besides
    the containers (sections 3 and 6, glossary).  The request that is
    present is a dictionary with content, and a model is named by the
    need-repack indicator only if it has an entry point, the code that the
    repack puts into its archive.  The constructors of the step classes,
    which are not among the sources, rely on both: a create step needs its
    arguments and a repack step the entry point of its model. *)
Definition has_entry_point (m : Model) : bool :=
  match entry_point m with
  | Some _ => true
  | None => false
  end.

Definition steps_constructible (a : ModelStepArguments) : bool :=
  truthy (pending_request a)
  && forallb (λ im, has_entry_point im.2)
             (flagged (need_runtime_repack a) (constituents (model a))).

(** The arguments once the pending request has become [r']. *)
Definition patched (a : ModelStepArguments) (r' : pyval) : ModelStepArguments :=
  if is_None (create_model_request a)
  then with_args a (create_model_request a) r'
  else with_args a r' (create_model_package_request a).

(** The dependency edges the source gives the last step: none under a
    non-empty indicator, the caller's otherwise. *)
Definition final_depends_on (X : gset nat) (d : option (list Dependency))
  : option (list Dependency) :=
  if truthy_set X then None
  else match d with
       | Some (x :: l) => Some (x :: l)
       | _ => None
       end.

(** The repack steps the source builds for the named constituents, in
    container order. *)
Definition expected_repack_steps (n : string) (a : ModelStepArguments)
    (d : option (list Dependency)) (rp : RetryPolicies)
    (dn ds : option string) : list RepackModelStep :=
  (λ im, make_repack_step (initial n a d rp dn ds)
           (vpc_settings (model a)).2 (vpc_settings (model a)).1 im.1 im.2)
  <$> flagged (need_runtime_repack a) (constituents (model a)).

(** What the repack stage hands to [logging.warning]. *)
Definition expected_warnings (a : ModelStepArguments) : list string :=
  if truthy_set (need_runtime_repack a)
  then match model a with
       | OtherObject _ | ObjectWithoutSession => ["No models to repack"]
       | _ => []
       end
  else [].

(** Errors of subscripting and item assignment. *)
Definition lookup_error (e : exn) : Prop :=
  match e with
  | KeyError _ | IndexError _ => True
  | TypeError msg =>
      msg ∈ ["object is not subscriptable";
             "object does not support item assignment";
             "list indices must be integers";
             "string indices must be integers"]
  | ValueError _ | AttributeError _ => False
  end.

(** The disambiguator of a repack step's name: the model's own name if it
    has one (a name that is not the empty string), else its position. *)
Definition disambiguator (i : nat) (m : Model) (x : string) : Prop :=
  match model_name m with
  | Some s => if decide (s = "") then x = str_of_nat i else x = s
  | None => x = str_of_nat i
  end.

(** The identities of the constituents of the owning model. *)
Definition constituent_ids (a : ModelStepArguments) : list nat :=
  model_id <$> constituents (model a).

(** Kinds of steps. *)
Definition repack_steps (l : list Step) : list RepackModelStep :=
  omap (λ s, match s with Repack r => Some r | _ => None end) l.

Definition is_Repack (s : Step) : bool :=
  match s with Repack _ => true | _ => false end.
Definition is_RegisterModel (s : Step) : bool :=
  match s with RegisterModel _ => true | _ => false end.
Definition is_CreateModel (s : Step) : bool :=
  match s with CreateModel _ => true | _ => false end.

(** The dependency edges of a step of any kind. *)
Definition step_depends_on (s : Step) : option (list Dependency) :=
  match s with
  | Repack r => rp_depends_on r
  | RegisterModel s | CreateModel s => st_depends_on s
  end.

Definition step_name (s : Step) : string :=
  match s with
  | Repack r => rp_name r
  | RegisterModel s | CreateModel s => st_name s
  end.

(** An object that differs from [self] in its steps and in the content of
    the two request dictionaries only. *)
Definition evolved (self : ModelStep) (stps : list Step) (create package : pyval)
  : ModelStep :=
  {| name := name self;
     step_args := with_args (step_args self) create package;
     depends_on := depends_on self;
     retry_policies := retry_policies self;
     display_name := display_name self;
     description := description self;
     steps := stps;
     _create_model_retry_policies := _create_model_retry_policies self;
     _register_model_retry_policies := _register_model_retry_policies self;
     _repack_model_retry_policies := _repack_model_retry_policies self |}.

(** ** Requests of the unit tests

    The requests that tests/unit/sagemaker/workflow/test_model_step.py
    obtains from [.create()] and [.register()], cut down to the entries the
    composer looks at. *)

Definition model_data_param : pyval := VProp "Parameters.ModelData".

Definition container (image : string) : pyval :=
  VDict {[ "Image" := VStr image; "ModelDataUrl" := model_data_param ]}.

Definition my_model : Model :=
  {| model_id := 1;
     model_name := Some "MyModel";
     model_sagemaker_session := Some PipelineSession;
     model_role := Some "DummyRole";
     model_data := model_data_param;
     entry_point := Some "dummy_script.py";
     source_dir := Some "data";
     dependencies := None;
     model_vpc_config := None |}.

Definition sparkml_model : Model :=
  {| model_id := 2;
     model_name := None;
     model_sagemaker_session := Some PipelineSession;
     model_role := Some "DummyRole";
     model_data := model_data_param;
     entry_point := Some "dummy_script.py";
     source_dir := None;
     dependencies := None;
     model_vpc_config := None |}.

Definition unnamed_model : Model :=
  {| model_id := 3;
     model_name := None;
     model_sagemaker_session := Some PipelineSession;
     model_role := Some "DummyRole";
     model_data := model_data_param;
     entry_point := Some "dummy_script.py";
     source_dir := Some "data";
     dependencies := None;
     model_vpc_config := None |}.

(** [test_register_model_with_runtime_repack] *)
Definition register_args : ModelStepArguments :=
  {| model := IsModel my_model;
     create_model_package_request :=
       VDict {[ "ModelPackageGroupName" := VStr "MyModelPackageGroup";
                "InferenceSpecification" :=
                  VDict {[ "Containers" := VList [container "fakeimage"] ]} ]};
     create_model_request := VNone;
     need_runtime_repack := {[ 1 ]} |}.

(** [test_create_model_with_runtime_repack] *)
Definition create_args : ModelStepArguments :=
  {| model := IsModel my_model;
     create_model_package_request := VNone;
     create_model_request :=
       VDict {[ "ModelName" := VStr "MyModel";
                "PrimaryContainer" := container "fakeimage" ]};
     need_runtime_repack := {[ 1 ]} |}.

(** [test_register_pipeline_model_with_runtime_repack]: of the two models
    only the second needs the repack. *)
Definition pipeline_register_args : ModelStepArguments :=
  {| model :=
       IsPipelineModel
         {| models := [sparkml_model; unnamed_model];
            pm_sagemaker_session := Some PipelineSession;
            pm_role := Some "DummyRole";
            pm_vpc_config := None |};
     create_model_package_request :=
       VDict {[ "ModelPackageGroupName" := VStr "MyModelPackageGroup";
                "InferenceSpecification" :=
                  VDict {[ "Containers" :=
                             VList [container "sparkml"; container "fakeimage"] ]} ]};
     create_model_request := VNone;
     need_runtime_repack := {[ 3 ]} |}.

(** [test_create_pipeline_model_with_runtime_repack] *)
Definition pipeline_create_args : ModelStepArguments :=
  {| model :=
       IsPipelineModel
         {| models := [sparkml_model; my_model];
            pm_sagemaker_session := Some PipelineSession;
            pm_role := Some "DummyRole";
            pm_vpc_config := None |};
     create_model_package_request := VNone;
     create_model_request :=
       VDict {[ "ModelName" := VStr "MyPipelineModel";
                "Containers" :=
                  VList [container "sparkml"; container "fakeimage"] ]};
     need_runtime_repack := {[ 1 ]} |}.

(** [test_create_model_with_compile_time_repack]: nothing to repack. *)
Definition plain_create_args : ModelStepArguments :=
  {| model := IsModel my_model;
     create_model_package_request := VNone;
     create_model_request :=
       VDict {[ "ModelName" := VStr "MyModel";
                "PrimaryContainer" := container "fakeimage" ]};
     need_runtime_repack := ∅ |}.

(** A create request whose owning model is of neither model class, with a
    non-empty indicator: the case of lines 151-153. *)
Definition foreign_args : ModelStepArguments :=
  {| model := OtherObject (Some PipelineSession);
     create_model_package_request := VNone;
     create_model_request :=
       VDict {[ "ModelName" := VStr "MyModel";
                "PrimaryContainer" := container "fakeimage" ]};
     need_runtime_repack := {[ 9 ]} |}.

(** The request of [test_create_model_with_runtime_repack] under an
    indicator that holds the identity of no constituent. *)
Definition stale_args : ModelStepArguments :=
  {| model := IsModel my_model;
     create_model_package_request := VNone;
     create_model_request :=
       VDict {[ "ModelName" := VStr "MyModel";
                "PrimaryContainer" := container "fakeimage" ]};
     need_runtime_repack := {[ 5 ]} |}.

(** A create request that passes the three checks of the constructor but
    holds no primary container for the model to repack. *)
Definition bare_create_args : ModelStepArguments :=
  {| model := IsModel my_model;
     create_model_package_request := VNone;
     create_model_request := VDict {[ "ModelName" := VStr "MyModel" ]};
     need_runtime_repack := {[ 1 ]} |}.

(** The request of [test_create_model_with_runtime_repack] when
    [step_args.model] is [None]. *)
Definition modelless_args : ModelStepArguments :=
  {| model := ObjectWithoutSession;
     create_model_package_request := VNone;
     create_model_request :=
       VDict {[ "ModelName" := VStr "MyModel";
                "PrimaryContainer" := container "fakeimage" ]};
     need_runtime_repack := ∅ |}.

(** A multi-container model that lists the same model object twice, with a
    create request that holds a container for each position. *)
Definition twin_args : ModelStepArguments :=
  {| model :=
       IsPipelineModel
         {| models := [my_model; my_model];
            pm_sagemaker_session := Some PipelineSession;
            pm_role := Some "DummyRole";
            pm_vpc_config := None |};
     create_model_package_request := VNone;
     create_model_request :=
       VDict {[ "ModelName" := VStr "MyPipelineModel";
                "Containers" :=
                  VList [container "fakeimage"; container "fakeimage"] ]};
     need_runtime_repack := {[ 1 ]} |}.

Definition test_step : option (list Dependency) := Some [DepName "TestStep"].

(** ** Vocabulary of the further properties *)

(** The path, in the pending request, of the [ModelDataUrl] of the
    container that belongs to the constituent at position [i]. *)
Definition ModelDataUrl_path (a : ModelStepArguments) (i : nat) : list key :=
  matched_container a i ++ [KStr "ModelDataUrl"].

(** Lines 114-117: the register step, or else the create step, is
    appended. *)
Definition with_final_step (self : ModelStep) : ModelStep :=
  if truthy (_register_model_args self)
  then _append_register_model_step self
  else _append_create_model_step self.

(** The reference to the output of the repack step built, in the collection
    named [n], for the constituent [m] at position [i]. *)
Definition repack_reference (n : string) (i : nat) (m : Model) : pyval :=
  VProp ("Steps." +:+ (n +:+ "-RepackModel-" +:+ name_base m i)
         +:+ ".ModelArtifacts.S3ModelArtifacts").

(** The create or register step behind a step, if it is one. *)
Definition request_step (s : Step) : option ModelRequestStep :=
  match s with
  | RegisterModel r | CreateModel r => Some r
  | Repack _ => None
  end.

Definition step_retry_policies (s : Step) : option (list RetryPolicy) :=
  match s with
  | Repack r => rp_retry_policies r
  | RegisterModel r | CreateModel r => st_retry_policies r
  end.

(** ** Subscripts and paths *)

Section paths.
Implicit Types (v x y : pyval) (k : key) (p q : list key).
Implicit Types (f : pyval → result pyval).

Lemma bind_Ok {A B} (m : result A) (g : A → result B) (b : B) :
  m ≫= g = Ok b ↔ ∃ a, m = Ok a ∧ g a = Ok b.
Proof.
  destruct m as [a|e]; simpl; split.
  - eauto.
  - by intros (a' & [= <-] & ?).
  - done.
  - by intros (a' & [=] & ?).
Qed.

Lemma getitem_put_ne v k k' y :
  k ≠ k' → getitem (put v k y) k' = getitem v k'.
Proof.
  intros Hne. destruct v, k, k'; simpl; try done.
  - rewrite list_lookup_insert_ne; [done | congruence].
  - rewrite lookup_insert_ne; [done | congruence].
Qed.

Lemma getitem_put_eq v k x y :
  getitem v k = Ok x → (∀ t, v ≠ VStr t) → getitem (put v k y) k = Ok y.
Proof.
  intros Hget Hstr. destruct v, k; simpl in *; try done.
  - by destruct (Hstr s).
  - destruct (l !! i) eqn:Hl; [|done].
    rewrite list_lookup_insert_eq; [done | by eapply lookup_lt_Some].
  - by rewrite lookup_insert_eq.
Qed.

Lemma lookup_path_app p q v :
  lookup_path (p ++ q) v = lookup_path p v ≫= lookup_path q.
Proof.
  revert v. induction p as [|k p IH]; intros v; simpl; [done|].
  destruct (getitem v k); simpl; [apply IH | done].
Qed.

(** A patch below [p] is not seen along a path that parts ways with
    [p]. *)
Lemma update_path_diverge p q f v v' :
  diverge p q = true → update_path p f v = Ok v' →
  lookup_path q v' = lookup_path q v.
Proof.
  revert q v v'. induction p as [|k p IH]; intros q v v' Hd Hup; [done|].
  destruct q as [|k' q]; [done|]. simpl in Hd, Hup.
  apply bind_Ok in Hup as (x & Hx & Hup).
  apply bind_Ok in Hup as (x' & Hx' & [= <-]). simpl.
  destruct (decide (k = k')) as [<-|Hne].
  - assert ((∃ t, v = VStr t) ∨ ∀ t, v ≠ VStr t) as [[t ->]|Hstr]
      by (destruct v; eauto).
    + by destruct k.
    + rewrite (getitem_put_eq _ _ x), Hx; [|done..].
      simpl. by eapply IH.
  - by rewrite getitem_put_ne.
Qed.

(** No patch that refuses strings gets through a string. *)
Lemma update_path_str p f t v' :
  (∀ t, f (VStr t) = Raise no_item_assignment) →
  update_path p f (VStr t) = Ok v' → False.
Proof.
  intros Hf. revert t v'. induction p as [|k p IH]; intros t v'; simpl.
  - by rewrite Hf.
  - intros (x & Hx & Hup)%bind_Ok.
    apply bind_Ok in Hup as (x' & Hx' & _).
    destruct k as [s|i]; simpl in Hx; [done|].
    destruct (String.get i t); [|done].
    injection Hx as <-. by eapply IH.
Qed.

(** A successful patch found its target and left the patched target
    there. *)
Lemma update_path_target p f v v' :
  (∀ t, f (VStr t) = Raise no_item_assignment) →
  update_path p f v = Ok v' →
  ∃ c c', lookup_path p v = Ok c ∧ f c = Ok c' ∧ lookup_path p v' = Ok c'.
Proof.
  intros Hf. revert v v'. induction p as [|k p IH]; intros v v' Hup; simpl in *.
  - eauto.
  - apply bind_Ok in Hup as (x & Hx & Hup).
    apply bind_Ok in Hup as (x' & Hx' & [= <-]).
    destruct (IH _ _ Hx') as (c & c' & Hc & Hfc & Hc').
    exists c, c'. rewrite Hx. simpl. split; [done|]. split; [done|].
    rewrite (getitem_put_eq _ _ x); [done..|].
    intros t ->. destruct k as [s|i]; simpl in Hx; [done|].
    destruct (String.get i t); [|done].
    injection Hx as <-. by eapply update_path_str.
Qed.

(** A patch succeeds as soon as its target exists and accepts it. *)
Lemma update_path_Ok p f v c c' :
  lookup_path p v = Ok c → f c = Ok c' → ∃ v', update_path p f v = Ok v'.
Proof.
  revert v. induction p as [|k p IH]; intros v; simpl.
  - intros [= ->] ?. eauto.
  - intros (x & Hx & Hl)%bind_Ok Hf. rewrite Hx. simpl.
    destruct (IH _ Hl Hf) as (x' & ->). simpl. eauto.
Qed.

Lemma diverge_app p k q :
  diverge (p ++ [k]) q = true →
  diverge p q = true ∨ ∃ k' r, q = p ++ k' :: r ∧ k ≠ k'.
Proof.
  revert q. induction p as [|k0 p IH]; intros [|k' q]; simpl; try done.
  - case_decide; [by destruct q|]. intros _. right. by exists k', q.
  - case_decide as Hk; [|by left]. subst k'. intros Hd.
    destruct (IH _ Hd) as [?|(k' & r & -> & ?)]; [by left|].
    right. by exists k', r.
Qed.

Lemma getitem_error v k e : getitem v k = Raise e → lookup_error e.
Proof.
  destruct v, k; simpl; intros H; simplify_eq; simpl;
    try (by repeat (try (by left); right)).
  - destruct (String.get i s); by simplify_eq.
  - destruct (l !! i); by simplify_eq.
  - destruct (d !! s); by simplify_eq.
Qed.

Lemma setitem_error v s x e : setitem v s x = Raise e → lookup_error e.
Proof.
  destruct v; simpl; intros H; simplify_eq; simpl;
    by repeat (try (by left); right).
Qed.

Lemma update_path_error p f v e :
  (∀ c e, f c = Raise e → lookup_error e) →
  update_path p f v = Raise e → lookup_error e.
Proof.
  intros Hf. revert v. induction p as [|k p IH]; intros v; simpl; [apply Hf|].
  destruct (getitem v k) as [x|e'] eqn:Hx; simpl.
  - destruct (update_path p f x) as [x'|e'] eqn:Hup; simpl; [done|].
    intros [= <-]. by eapply IH.
  - intros [= <-]. by eapply getitem_error.
Qed.

(** Assigning under the key [s] of the object at [p] puts [x] there and
    shows nowhere else. *)
Lemma setitem_frame p (s : string) x v v' :
  update_path p (λ c, setitem c s x) v = Ok v' →
  lookup_path (p ++ [KStr s]) v' = Ok x
  ∧ ∀ q, diverge (p ++ [KStr s]) q = true →
         lookup_path q v' = lookup_path q v.
Proof.
  intros Hup.
  destruct (update_path_target p _ v v' (λ t, eq_refl) Hup)
    as (c & c' & Hc & Hset & Hc').
  destruct c as [| | | | | |dd]; try done. injection Hset as <-.
  split.
  - rewrite lookup_path_app, Hc'. simpl. by rewrite lookup_insert_eq.
  - intros q [Hd|(k' & r & -> & Hne)]%diverge_app.
    + by eapply update_path_diverge.
    + rewrite !lookup_path_app, Hc, Hc'. simpl.
      destruct k' as [s'|j]; simpl; [|done].
      rewrite lookup_insert_ne; [done|congruence].
Qed.
End paths.

(** ** The repack stage *)

Section repack.
Implicit Types (self : ModelStep) (a : ModelStepArguments) (m : Model).
Implicit Types (X : gset nat) (v : pyval).

Lemma set_ModelDataUrl_str v t :
  set_ModelDataUrl v (VStr t) = Raise no_item_assignment.
Proof. done. Qed.

Lemma runtime_repack_flg_spec self m :
  runtime_repack_flg self m
  = bool_decide (model_id m ∈ _need_runtime_repack self).
Proof.
  unfold runtime_repack_flg, truthy_set.
  destruct (decide (model_id m ∈ _need_runtime_repack self)) as [Hin|Hin].
  - rewrite (bool_decide_eq_true_2 _ Hin), andb_true_r.
    rewrite bool_decide_eq_false_2; [done|]. set_solver.
  - by rewrite (bool_decide_eq_false_2 _ Hin), andb_false_r.
Qed.

(** A create request in which a container can be reached is truthy. *)
Lemma lookup_path_truthy (s : string) (p : list key) (r c : pyval) :
  lookup_path (KStr s :: p) r = Ok c → truthy r = true.
Proof.
  simpl. intros (x & Hx & _)%bind_Ok.
  destruct r; simpl in Hx; try done.
  destruct (d !! s) eqn:Hd; [|done]. simpl.
  apply negb_true_iff, Nat.eqb_neq. intros Hsz%map_size_empty_iff.
  by rewrite Hsz, lookup_empty in Hd.
Qed.

Lemma matched_container_cons a i :
  ∃ s p, matched_container a i = KStr s :: p.
Proof.
  unfold matched_container.
  destruct (is_None _); [eauto|]. destruct (model a); eauto.
Qed.

(** The source's choice of the container agrees with
    [matched_container] whenever that container exists. *)
Lemma patch_container_spec self st cr pk i v :
  let a := with_args (step_args self) cr pk in
  has_container a i = true →
  ∃ r', update_path (matched_container a i) (set_ModelDataUrl v)
          (pending_request a) = Ok r'
        ∧ patch_container (evolved self st cr pk) i v
          = Ok (evolved self st (create_model_request (patched a r'))
                  (create_model_package_request (patched a r'))).
Proof.
  intros a Hhas. unfold has_container in Hhas.
  destruct (lookup_path _ _) as [c|] eqn:Hc; [|done].
  destruct c as [| | | | | |d]; try done.
  destruct (update_path_Ok _ (set_ModelDataUrl v) _ _ _ Hc eq_refl)
    as (r' & Hr').
  exists r'. split; [done|].
  destruct (matched_container_cons a i) as (s & p & Hp).
  rewrite Hp in Hc.
  unfold patch_container, patched, _create_model_args, _model.
  change (step_args (evolved self st cr pk)) with a.
  unfold matched_container, pending_request in *.
  destruct (is_None (create_model_request a)) eqn:Hnone.
  - assert (truthy (create_model_request a) = false) as ->
      by (by destruct (create_model_request a)).
    by rewrite Hr'.
  - rewrite (lookup_path_truthy _ _ _ _ Hc).
    destruct (model a); cbn [is_PipelineModel]; by rewrite Hr'.
Qed.

(** Patching one container keeps the shape the other patches rely on. *)
Lemma patched_is_None a r' :
  is_None r' = false →
  is_None (create_model_request (patched a r'))
  = is_None (create_model_request a).
Proof.
  intros Hr. unfold patched.
  destruct (is_None (create_model_request a)) eqn:Hn; simpl; done.
Qed.

Lemma update_path_not_None (s : string) p f r r' :
  update_path (KStr s :: p) f r = Ok r' → is_None r' = false.
Proof.
  simpl. intros (x & Hx & Hup)%bind_Ok.
  apply bind_Ok in Hup as (x' & _ & [= <-]).
  by destruct r.
Qed.

Lemma update_path_truthy (s : string) p f r r' :
  update_path (KStr s :: p) f r = Ok r' → truthy r' = true.
Proof.
  simpl. intros (x & Hx & Hup)%bind_Ok.
  apply bind_Ok in Hup as (x' & _ & [= <-]).
  destruct r; simpl in *; try done.
  apply negb_true_iff, Nat.eqb_neq. intros Hsz%map_size_empty_iff.
  by apply insert_non_empty in Hsz.
Qed.

Lemma matched_container_rel a i j :
  matched_container a i = matched_container a j
  ∨ diverge (matched_container a i) (matched_container a j) = true.
Proof.
  unfold matched_container.
  destruct (decide (i = j)) as [->|Hne]; [by left|].
  destruct (is_None _).
  - right. simpl. repeat case_decide; naive_solver.
  - destruct (model a); [|by left..].
    right. simpl. repeat case_decide; naive_solver.
Qed.

Lemma has_container_patched a i j v r' :
  update_path (matched_container a i) (set_ModelDataUrl v)
    (pending_request a) = Ok r' →
  has_container a j = true → has_container (patched a r') j = true.
Proof.
  intros Hup Hj.
  destruct (matched_container_cons a i) as (s & p & Hp).
  assert (is_None r' = false) as Hr'
      by (rewrite Hp in Hup; by eapply update_path_not_None).
  assert (matched_container (patched a r') j = matched_container a j) as Hm.
  { unfold matched_container. rewrite patched_is_None by done.
    unfold patched. by destruct (is_None (create_model_request a)). }
  assert (pending_request (patched a r') = r') as Hpend.
  { unfold pending_request. rewrite patched_is_None by done.
    unfold patched. destruct (is_None (create_model_request a)); done. }
  unfold has_container in *. rewrite Hm, Hpend.
  destruct (matched_container_rel a i j) as [Heq|Hdiv].
  - rewrite <-Heq.
    destruct (update_path_target _ _ _ _ (set_ModelDataUrl_str v) Hup)
      as (c & c' & _ & Hset & ->).
    destruct c; try done. by injection Hset as <-.
  - by rewrite (update_path_diverge _ _ _ _ _ Hdiv Hup).
Qed.
End repack.

Section loop.
Implicit Types (self : ModelStep) (a : ModelStepArguments) (m : Model).

Lemma with_args_patched a cr pk r' :
  with_args a (create_model_request (patched (with_args a cr pk) r'))
              (create_model_package_request (patched (with_args a cr pk) r'))
  = patched (with_args a cr pk) r'.
Proof. unfold patched. by destruct (is_None _). Qed.

Lemma flagged_from_cons X i m ml :
  flagged_from X i (m :: ml)
  = if decide (model_id m ∈ X)
    then (i, m) :: flagged_from X (S i) ml
    else flagged_from X (S i) ml.
Proof. unfold flagged_from. simpl. by rewrite filter_cons. Qed.

(** What one patch does to the two requests. *)
Lemma patched_requests a i v r' :
  has_container a i = true →
  update_path (matched_container a i) (set_ModelDataUrl v)
    (pending_request a) = Ok r' →
  is_None (create_model_request (patched a r'))
  = is_None (create_model_request a)
  ∧ truthy (create_model_package_request (patched a r'))
    = truthy (create_model_package_request a).
Proof.
  intros Hhas Hup.
  destruct (matched_container_cons a i) as (s & p & Hp).
  rewrite Hp in Hup. split.
  - apply patched_is_None. by eapply update_path_not_None.
  - unfold has_container, is_dict in Hhas. rewrite Hp in Hhas.
    destruct (lookup_path _ _) as [c|] eqn:Hc; [|done].
    unfold patched, pending_request in *.
    destruct (is_None (create_model_request a)); simpl; [|done].
    by rewrite (update_path_truthy _ _ _ _ _ Hup),
               (lookup_path_truthy _ _ _ _ Hc).
Qed.

(** The loop appends one repack step per named constituent, in order,
    and changes nothing but the steps and the content of the requests. *)
Lemma repack_loop_spec self sn sg ml : ∀ i st cr pk,
  Forall (λ im, has_container (with_args (step_args self) cr pk) im.1 = true)
         (flagged_from (need_runtime_repack (step_args self)) i ml) →
  ∃ cr' pk',
    repack_loop (evolved self st cr pk) sn sg i ml
    = Ok (evolved self
            (st ++ ((λ im, Repack (make_repack_step self sn sg im.1 im.2))
                      <$> flagged_from (need_runtime_repack (step_args self)) i ml))
            cr' pk')
    ∧ is_None cr' = is_None cr ∧ truthy pk' = truthy pk.
Proof.
  induction ml as [|m ml IH]; intros i st cr pk Hall.
  - exists cr, pk. simpl. by rewrite app_nil_r.
  - rewrite flagged_from_cons in Hall |- *.
    cbn [repack_loop]. unfold repack_iteration.
    rewrite runtime_repack_flg_spec.
    change (_need_runtime_repack (evolved self st cr pk))
      with (need_runtime_repack (step_args self)).
    destruct (decide (model_id m ∈ need_runtime_repack (step_args self)))
      as [Hin|Hin].
    + rewrite (bool_decide_eq_true_2 _ Hin).
      apply Forall_cons in Hall as [Hi Hall]. simpl in Hi.
      set (s := make_repack_step (evolved self st cr pk) sn sg i m).
      change (append_step (evolved self st cr pk) (Repack s))
        with (evolved self (st ++ [Repack s]) cr pk).
      destruct (patch_container_spec self (st ++ [Repack s]) cr pk i
                  (S3ModelArtifacts s) Hi) as (r' & Hup & ->).
      simpl.
      destruct (patched_requests _ _ _ _ Hi Hup) as [Hnone Htruthy].
      destruct (IH (S i) (st ++ [Repack s])
                  (create_model_request (patched (with_args (step_args self) cr pk) r'))
                  (create_model_package_request (patched (with_args (step_args self) cr pk) r')))
        as (cr' & pk' & -> & Hn' & Ht').
      { rewrite with_args_patched. eapply Forall_impl; [exact Hall|].
        intros im. by apply has_container_patched with (i := i) (v := S3ModelArtifacts s). }
      exists cr', pk'. rewrite <-(assoc_L (++)). simpl. split; [done|].
      split; [by rewrite Hn'|by rewrite Ht'].
    + rewrite (bool_decide_eq_false_2 _ Hin). simpl.
      by apply IH.
Qed.
End loop.

(** ** The constructor as a whole *)

Section constructor.
Implicit Types (self : ModelStep) (a : ModelStepArguments) (m : Model).
Implicit Types (d : option (list Dependency)).

Lemma evolved_initial n a d rp dn ds :
  initial n a d rp dn ds
  = evolved (initial n a d rp dn ds) []
      (create_model_request a) (create_model_package_request a).
Proof. by destruct a. Qed.

Lemma with_args_id a :
  with_args a (create_model_request a) (create_model_package_request a) = a.
Proof. by destruct a. Qed.

Lemma flagged_from_empty i (ml : list Model) : flagged_from ∅ i ml = [].
Proof.
  revert i. induction ml as [|m ml IH]; intros i; [done|].
  rewrite flagged_from_cons, IH. by case_decide.
Qed.

Lemma truthy_set_false (X : gset nat) : truthy_set X = false ↔ X = ∅.
Proof.
  unfold truthy_set. rewrite negb_false_iff. apply bool_decide_eq_true.
Qed.

Lemma add_depends_on_name (s : ModelRequestStep) d :
  st_name (add_depends_on s d) = st_name s.
Proof. by destruct d as [[|x l]|]. Qed.

Lemma add_depends_on_fresh (s : ModelRequestStep) d :
  st_depends_on s = None →
  st_depends_on (add_depends_on s d)
  = match d with Some (x :: l) => Some (x :: l) | _ => None end.
Proof. intros Hs. destruct d as [[|x l]|]; simpl; by rewrite ?Hs. Qed.

(** Lines 114-117 on an object that went through the repack stage. *)
Lemma final_stage self st cr pk :
  let self' := evolved self st cr pk in
  ∃ fin,
    steps (if truthy (_register_model_args self')
           then _append_register_model_step self'
           else _append_create_model_step self') = st ++ [fin]
    ∧ is_Repack fin = false
    ∧ is_RegisterModel fin = truthy pk
    ∧ is_CreateModel fin = negb (truthy pk)
    ∧ step_depends_on fin
      = final_depends_on (need_runtime_repack (step_args self)) (depends_on self)
    ∧ step_name fin
      = name self +:+ (if truthy pk then "-RegisterModel" else "-CreateModel").
Proof.
  intros self'. unfold final_depends_on.
  change (_register_model_args self') with pk.
  destruct (truthy pk); eexists; (split; [reflexivity|]);
    cbn [is_Repack is_RegisterModel is_CreateModel step_depends_on step_name negb];
    change (_need_runtime_repack self')
      with (need_runtime_repack (step_args self));
    change (depends_on self') with (depends_on self);
    (destruct (truthy_set _); cbn [negb];
     [|rewrite add_depends_on_name, add_depends_on_fresh by done]);
    done.
Qed.

Lemma well_formed_checks a :
  well_formed a = true →
  xorb (is_None (create_model_request a))
       (is_None (create_model_package_request a)) = true
  ∧ is_PipelineSession (sagemaker_session (model a)) = true.
Proof. unfold well_formed. by intros [? ?]%andb_true_iff. Qed.

Lemma getattr_PipelineSession r :
  is_PipelineSession (sagemaker_session r) = true →
  getattr_sagemaker_session r = Ok (sagemaker_session r).
Proof. by destruct r. Qed.

Lemma patchable_Forall a :
  patchable a = true →
  Forall (λ im, has_container a im.1 = true)
         (flagged_from (need_runtime_repack a) 0 (constituents (model a))).
Proof.
  unfold patchable, flagged. intros H. apply Forall_forall. intros im Him.
  apply (proj1 (forallb_forall _ _) H). by apply list_elem_of_In.
Qed.

(** The repack stage on the fresh object. *)
Lemma repack_stage_spec n a d rp dn ds :
  patchable a = true →
  ∃ cr' pk',
    (if truthy_set (need_runtime_repack a)
     then _append_repack_model_step (initial n a d rp dn ds)
     else mret (initial n a d rp dn ds, []))
    = Ok (evolved (initial n a d rp dn ds)
            (Repack <$> expected_repack_steps n a d rp dn ds) cr' pk',
          expected_warnings a)
    ∧ truthy pk' = truthy (create_model_package_request a).
Proof.
  intros Hp. unfold expected_repack_steps, expected_warnings, flagged, constituents.
  destruct (truthy_set (need_runtime_repack a)) eqn:HX.
  - unfold _append_repack_model_step.
    change (_model (initial n a d rp dn ds)) with (model a).
    destruct (model_list (model a)) as [ml|] eqn:Hml.
    + destruct (vpc_settings (model a)) as [sg sn] eqn:Hvpc.
      apply patchable_Forall in Hp. unfold constituents in Hp.
      rewrite Hml in Hp. cbn [default from_option id fst snd] in Hp |- *.
      cbv beta iota.
      destruct (repack_loop_spec (initial n a d rp dn ds) sn sg ml 0 []
                  (create_model_request a) (create_model_package_request a))
        as (cr' & pk' & Hloop & _ & Ht).
      { change (step_args (initial n a d rp dn ds)) with a.
        by rewrite with_args_id. }
      rewrite <-evolved_initial in Hloop.
      exists cr', pk'. rewrite Hloop.
      cbn [mbind result_bind mret result_ret app].
      change (step_args (initial n a d rp dn ds)) with a.
      rewrite <-list_fmap_compose. split; [|done].
      by destruct (model a).
    + exists (create_model_request a), (create_model_package_request a).
      simpl. rewrite <-evolved_initial. split; [|done].
      by destruct (model a).
  - apply truthy_set_false in HX. rewrite HX, flagged_from_empty. simpl.
    exists (create_model_request a), (create_model_package_request a).
    by rewrite <-evolved_initial.
Qed.

(** A well-formed request whose containers are in place is composed
    into the expected repack steps followed by one last step. *)
Lemma ModelStep_init_spec n a d rp dn ds :
  well_formed a = true → patchable a = true →
  ∃ self fin,
    ModelStep_init n (IsModelStepArguments a) d rp dn ds
    = Ok (self, expected_warnings a)
    ∧ steps self = (Repack <$> expected_repack_steps n a d rp dn ds) ++ [fin]
    ∧ is_Repack fin = false
    ∧ is_RegisterModel fin = truthy (create_model_package_request a)
    ∧ is_CreateModel fin = negb (truthy (create_model_package_request a))
    ∧ step_depends_on fin = final_depends_on (need_runtime_repack a) d
    ∧ step_name fin
      = n +:+ (if truthy (create_model_package_request a)
               then "-RegisterModel" else "-CreateModel").
Proof.
  intros [Hxor Hsess]%well_formed_checks Hp.
  unfold ModelStep_init. rewrite Hxor, (getattr_PipelineSession _ Hsess).
  cbn [negb mbind result_bind]. rewrite Hsess. cbn [negb].
  change (_need_runtime_repack (initial n a d rp dn ds))
    with (need_runtime_repack a).
  destruct (repack_stage_spec n a d rp dn ds Hp) as (cr' & pk' & -> & Ht).
  cbn [mbind result_bind mret result_ret].
  destruct (final_stage (initial n a d rp dn ds)
              (Repack <$> expected_repack_steps n a d rp dn ds) cr' pk')
    as (fin & Hsteps & Hfin).
  rewrite Ht in Hfin. eauto.
Qed.
End constructor.

(** ** The unit tests, on the embedding *)

(** [test_register_model_with_runtime_repack]: the repack step depends on
    [TestStep] and has the repack bucket of the retry policies; the
    register step has no dependency, the register bucket, and a container
    that refers to the repack step. *)
Example test_register_model_with_runtime_repack :
  let throttling := {| exception_types := ["Step.THROTTLING"]; max_attempts := 3 |} in
  let capacity :=
    {| exception_types := ["SageMaker.CAPACITY_ERROR"]; max_attempts := 3 |} in
  ∃ self repack register,
    ModelStep_init "MyModelStep" (IsModelStepArguments register_args) test_step
      (RetryDict {[ "register_model_retry_policies" := [throttling];
                    "repack_model_retry_policies" := [capacity] ]})
      None (Some "my model step description") = Ok (self, [])
    ∧ steps self = [Repack repack; RegisterModel register]
    ∧ rp_name repack = "MyModelStep-RepackModel-MyModel"
    ∧ rp_depends_on repack = Some [DepName "TestStep"]
    ∧ rp_retry_policies repack = Some [capacity]
    ∧ st_name register = "MyModelStep-RegisterModel"
    ∧ st_depends_on register = None
    ∧ st_retry_policies register = Some [throttling]
    ∧ lookup_path [KStr "InferenceSpecification"; KStr "Containers"; KIdx 0;
                   KStr "ModelDataUrl"] (st_step_args register)
      = Ok (VProp "Steps.MyModelStep-RepackModel-MyModel.ModelArtifacts.S3ModelArtifacts")
    ∧ lookup_path [KStr "InferenceSpecification"; KStr "Containers"; KIdx 0;
                   KStr "Image"] (st_step_args register)
      = Ok (VStr "fakeimage")
    ∧ lookup_path [KStr "ModelPackageGroupName"] (st_step_args register)
      = Ok (VStr "MyModelPackageGroup").
Proof.
  intros throttling capacity. eexists _, _, _.
  split; [by vm_compute|]. split; [by vm_compute|]. by vm_compute.
Qed.

(** [test_create_model_with_runtime_repack] *)
Example test_create_model_with_runtime_repack :
  ∃ self repack create,
    ModelStep_init "MyModelStep" (IsModelStepArguments create_args) None
      (RetryList [{| exception_types := ["Step.THROTTLING"]; max_attempts := 3 |}])
      None (Some "my model step description") = Ok (self, [])
    ∧ steps self = [Repack repack; CreateModel create]
    ∧ rp_name repack = "MyModelStep-RepackModel-MyModel"
    ∧ rp_retry_policies repack = st_retry_policies create
    ∧ st_name create = "MyModelStep-CreateModel"
    ∧ lookup_path [KStr "PrimaryContainer"; KStr "ModelDataUrl"] (st_step_args create)
      = Ok (VProp "Steps.MyModelStep-RepackModel-MyModel.ModelArtifacts.S3ModelArtifacts")
    ∧ lookup_path [KStr "PrimaryContainer"; KStr "Image"] (st_step_args create)
      = Ok (VStr "fakeimage").
Proof.
  eexists _, _, _.
  split; [by vm_compute|]. split; [by vm_compute|]. by vm_compute.
Qed.

(** [test_create_pipeline_model_with_runtime_repack]: the first container
    keeps its model data, the second refers to the repack step. *)
Example test_create_pipeline_model_with_runtime_repack :
  ∃ self repack create,
    ModelStep_init "MyModelStep" (IsModelStepArguments pipeline_create_args)
      None RetryNone None None = Ok (self, [])
    ∧ steps self = [Repack repack; CreateModel create]
    ∧ rp_name repack = "MyModelStep-RepackModel-MyModel"
    ∧ lookup_path [KStr "Containers"; KIdx 0; KStr "ModelDataUrl"] (st_step_args create)
      = Ok model_data_param
    ∧ lookup_path [KStr "Containers"; KIdx 1; KStr "ModelDataUrl"] (st_step_args create)
      = Ok (VProp "Steps.MyModelStep-RepackModel-MyModel.ModelArtifacts.S3ModelArtifacts").
Proof.
  eexists _, _, _.
  split; [by vm_compute|]. split; [by vm_compute|]. by vm_compute.
Qed.

(** [test_register_pipeline_model_with_runtime_repack]: the repack step of
    a model without a name is named after its position. *)
Example test_register_pipeline_model_with_runtime_repack :
  ∃ self repack register,
    ModelStep_init "MyModelStep" (IsModelStepArguments pipeline_register_args)
      None RetryNone None None = Ok (self, [])
    ∧ steps self = [Repack repack; RegisterModel register]
    ∧ rp_name repack = "MyModelStep-RepackModel-1"
    ∧ lookup_path [KStr "InferenceSpecification"; KStr "Containers"; KIdx 0;
                   KStr "ModelDataUrl"] (st_step_args register)
      = Ok model_data_param
    ∧ lookup_path [KStr "InferenceSpecification"; KStr "Containers"; KIdx 1;
                   KStr "ModelDataUrl"] (st_step_args register)
      = Ok (VProp "Steps.MyModelStep-RepackModel-1.ModelArtifacts.S3ModelArtifacts").
Proof.
  eexists _, _, _.
  split; [by vm_compute|]. split; [by vm_compute|]. by vm_compute.
Qed.

(** [test_create_model_with_compile_time_repack]: without a repack the
    create step is the only step and depends on [TestStep]. *)
Example test_create_model_with_compile_time_repack :
  ∃ self create,
    ModelStep_init "MyModelStep" (IsModelStepArguments plain_create_args)
      test_step RetryNone None None = Ok (self, [])
    ∧ steps self = [CreateModel create]
    ∧ st_name create = "MyModelStep-CreateModel"
    ∧ st_depends_on create = Some [DepName "TestStep"]
    ∧ st_step_args create = create_model_request plain_create_args.
Proof.
  eexists _, _.
  split; [by vm_compute|]. split; [by vm_compute|]. by vm_compute.
Qed.

(** ** Properties of the composition *)

Section composition.
Implicit Types (self : ModelStep) (a : ModelStepArguments) (m : Model).
Implicit Types (d : option (list Dependency)) (X : gset nat).

Lemma repack_steps_app_final (l : list RepackModelStep) fin :
  is_Repack fin = false → repack_steps ((Repack <$> l) ++ [fin]) = l.
Proof.
  intros Hfin. unfold repack_steps. rewrite omap_app.
  assert (omap (λ s, match s with Repack r => Some r | _ => None end) [fin]
          = []) as -> by (by destruct fin).
  rewrite app_nil_r. induction l as [|r l IH]; [done|].
  rewrite fmap_cons. cbn [omap list_omap]. by rewrite IH.
Qed.

Lemma length_flagged_from X i (ml : list Model) :
  length (flagged_from X i ml)
  = length (filter (λ x, x ∈ X) (model_id <$> ml)).
Proof.
  revert i. induction ml as [|m ml IH]; intros i; [done|].
  rewrite flagged_from_cons, fmap_cons, filter_cons.
  case_decide; simpl; by rewrite IH.
Qed.

(** With pairwise distinct constituents, the named constituents are as
    many as the identities the indicator shares with them. *)
Lemma flagged_count X (ml : list Model) :
  NoDup (model_id <$> ml) →
  length (flagged X ml) = size (X ∩ list_to_set (model_id <$> ml)).
Proof.
  intros Hnd. unfold flagged. rewrite length_flagged_from.
  assert (X ∩ list_to_set (model_id <$> ml)
          = list_to_set (filter (λ x, x ∈ X) (model_id <$> ml))) as ->.
  { apply set_eq. intros x.
    rewrite elem_of_intersection, !elem_of_list_to_set, list_elem_of_filter.
    done. }
  symmetry. apply size_list_to_set. by apply NoDup_filter.
Qed.

Lemma name_base_disambiguator i m : disambiguator i m (name_base m i).
Proof.
  unfold disambiguator, name_base. destruct (model_name m) as [s|]; [|done].
  destruct (String.eqb_spec s ""); by case_decide.
Qed.
End composition.

(** C2, as the code has it.  A request that passes the checks of the
    constructor, holds the containers to patch and gives the step
    constructors what they need is composed, and the composition holds one
    repack step per position of the container list whose model the
    need-repack indicator names: as many as such positions, which is [k]
    when the constituents are pairwise distinct and the indicator shares
    [k] identities with them, in container order, each named
    [<collection-name>-RepackModel-<disambiguator>] with the model's own
    name, or its position when it has none, and each with the caller's
    [depends_on]. *)
Theorem repack_step_per_named_model n a d rp dn ds :
  well_formed a = true → patchable a = true → steps_constructible a = true →
  ∃ self w,
    ModelStep_init n (IsModelStepArguments a) d rp dn ds = Ok (self, w)
    ∧ Forall2 (λ im r,
         (∃ x, disambiguator im.1 im.2 x
               ∧ rp_name r = n +:+ "-RepackModel-" +:+ x)
         ∧ rp_depends_on r = d
         ∧ rp_model_data r = model_data im.2)
        (flagged (need_runtime_repack a) (constituents (model a)))
        (repack_steps (steps self))
    ∧ length (repack_steps (steps self))
      = length (flagged (need_runtime_repack a) (constituents (model a)))
    ∧ (∀ k, NoDup (constituent_ids a) →
            size (need_runtime_repack a ∩ list_to_set (constituent_ids a)) = k →
            length (repack_steps (steps self)) = k).
Proof.
  intros Hwf Hp _.
  destruct (ModelStep_init_spec n a d rp dn ds Hwf Hp)
    as (self & fin & Hinit & Hsteps & Hfin & _).
  exists self, (expected_warnings a). split; [done|].
  rewrite Hsteps, repack_steps_app_final by done.
  unfold expected_repack_steps. split; [|split].
  - apply Forall2_fmap_r, Forall_Forall2_diag, Forall_forall.
    intros [i m] _. simpl. split; [|done].
    exists (name_base m i). split; [apply name_base_disambiguator|done].
  - by rewrite length_fmap.
  - intros k Hnd <-. rewrite length_fmap. by apply flagged_count.
Qed.

(** C2 on the request of [test_register_pipeline_model_with_runtime_repack]:
    one repack step, named after the position of the unnamed model. *)
Lemma repack_step_per_named_model_witness :
  ∃ self w,
    ModelStep_init "MyModelStep" (IsModelStepArguments pipeline_register_args)
      test_step RetryNone None None = Ok (self, w)
    ∧ rp_name <$> repack_steps (steps self) = ["MyModelStep-RepackModel-1"]
    ∧ rp_depends_on <$> repack_steps (steps self) = [test_step].
Proof.
  destruct (repack_step_per_named_model "MyModelStep" pipeline_register_args
              test_step RetryNone None None eq_refl eq_refl eq_refl)
    as (self & w & Hinit & Hall & _).
  exists self, w. split; [exact Hinit|].
  vm_compute in Hinit. injection Hinit as <- _. vm_compute. done.
Defined.

(** The claim C2 as the specification words it fails: a multi-container
    model that lists one model object twice, named by the indicator.  The
    indicator names one constituent model artifact, and the composition
    holds two repack steps, one for each position of the model. *)
Lemma twin_model_is_repacked_twice :
  well_formed twin_args = true
  ∧ patchable twin_args = true
  ∧ steps_constructible twin_args = true
  ∧ size (need_runtime_repack twin_args) = 1
  ∧ size (need_runtime_repack twin_args
          ∩ list_to_set (constituent_ids twin_args)) = 1
  ∧ ∃ self w,
      ModelStep_init "MyModelStep" (IsModelStepArguments twin_args)
        test_step RetryNone None None = Ok (self, w)
      ∧ length (repack_steps (steps self)) = 2.
Proof.
  split; [done|]. split; [by vm_compute|]. split; [by vm_compute|].
  split; [by vm_compute|]. split; [by vm_compute|].
  eexists _, _. split; [by vm_compute|]. by vm_compute.
Qed.

Section kinds.
Implicit Types (a : ModelStepArguments) (s fin : Step).

Lemma is_None_spec (v : pyval) : is_None v = true ↔ v = VNone.
Proof. by destruct v. Qed.

(** In a request with exactly one, non-empty, dictionary, the register
    arguments are truthy exactly when they are present. *)
Lemma register_args_present a :
  well_formed a = true → truthy (pending_request a) = true →
  truthy (create_model_package_request a)
  = negb (is_None (create_model_package_request a)).
Proof.
  intros [Hxor _]%well_formed_checks. unfold pending_request.
  destruct (is_None (create_model_request a)),
           (is_None (create_model_package_request a)) eqn:Hpk;
    try done; simpl.
  apply is_None_spec in Hpk. by rewrite Hpk.
Qed.

Lemma filter_final (l : list RepackModelStep) fin :
  is_Repack fin = false →
  filter (λ s, is_Repack s = false) ((Repack <$> l) ++ [fin]) = [fin].
Proof.
  intros Hfin. rewrite filter_app, filter_cons, decide_True by done.
  assert (filter (λ s, is_Repack s = false) (Repack <$> l) = []) as ->; [|done].
  induction l as [|r l IH]; [done|].
  rewrite fmap_cons, filter_cons, decide_False; done.
Qed.

Lemma repacks_before_final (l : list RepackModelStep) fin i j r s :
  ((Repack <$> l) ++ [fin]) !! i = Some (Repack r) →
  ((Repack <$> l) ++ [fin]) !! j = Some s →
  is_Repack fin = false → is_Repack s = false → i < j.
Proof.
  intros Hi Hj Hfin Hs.
  destruct (decide (i < length (Repack <$> l))) as [Hlt|Hge].
  - destruct (decide (j < length (Repack <$> l))) as [Hjlt|]; [|lia].
    rewrite lookup_app_l in Hj by done.
    apply list_lookup_fmap_Some in Hj as (r' & -> & _). done.
  - rewrite lookup_app_r in Hi by lia.
    destruct (i - length (Repack <$> l)) as [|?]; simpl in Hi; [|done].
    injection Hi as ->. done.
Qed.
End kinds.

(** C3.  A valid create-xor-register request (it passes the checks of the
    constructor, its one request is a non-empty dictionary and holds the
    containers to patch) is composed into a list with exactly one step that
    is not a repack step; that step is the register step when the register
    arguments are present and the create step otherwise, and every repack
    step comes before it. *)
Theorem one_final_step_after_repacks n a d rp dn ds :
  well_formed a = true → patchable a = true →
  truthy (pending_request a) = true →
  ∃ self w fin,
    ModelStep_init n (IsModelStepArguments a) d rp dn ds = Ok (self, w)
    ∧ filter (λ s, is_Repack s = false) (steps self) = [fin]
    ∧ (if is_None (create_model_package_request a)
       then is_CreateModel fin = true ∧ step_name fin = n +:+ "-CreateModel"
       else is_RegisterModel fin = true ∧ step_name fin = n +:+ "-RegisterModel")
    ∧ (∀ i j r s, steps self !! i = Some (Repack r) →
                  steps self !! j = Some s → is_Repack s = false → i < j).
Proof.
  intros Hwf Hp Ht.
  destruct (ModelStep_init_spec n a d rp dn ds Hwf Hp)
    as (self & fin & Hinit & Hsteps & Hfin & Hreg & Hcr & _ & Hname).
  exists self, (expected_warnings a), fin. split; [done|].
  rewrite Hsteps. split; [by apply filter_final|]. split.
  - rewrite (register_args_present a Hwf Ht) in Hreg, Hcr, Hname.
    destruct (is_None (create_model_package_request a)); simpl in *; done.
  - intros i j r s Hi Hj Hs. by eapply repacks_before_final.
Qed.

(** C3 on the request of [test_register_model_with_runtime_repack]: a
    repack step, then the register step. *)
Lemma one_final_step_after_repacks_witness :
  ∃ self w,
    ModelStep_init "MyModelStep" (IsModelStepArguments register_args)
      test_step RetryNone None None = Ok (self, w)
    ∧ step_name <$> steps self
      = ["MyModelStep-RepackModel-MyModel"; "MyModelStep-RegisterModel"]
    ∧ is_RegisterModel <$> steps self = [false; true].
Proof.
  destruct (one_final_step_after_repacks "MyModelStep" register_args
              test_step RetryNone None None eq_refl eq_refl eq_refl)
    as (self & w & fin & Hinit & _).
  exists self, w. split; [exact Hinit|].
  vm_compute in Hinit. injection Hinit as <- _. vm_compute. done.
Defined.

(** C9.  Under a non-empty indicator, an owning model of neither model
    class makes the repack stage log a warning and append nothing; the
    constructor does not raise and goes on to build the one create or
    register step. *)
Theorem unrecognized_model_is_skipped n a d rp dn ds session :
  well_formed a = true → model a = OtherObject session →
  need_runtime_repack a ≠ ∅ →
  _append_repack_model_step (initial n a d rp dn ds)
  = Ok (initial n a d rp dn ds, ["No models to repack"])
  ∧ ∃ self fin,
      ModelStep_init n (IsModelStepArguments a) d rp dn ds
      = Ok (self, ["No models to repack"])
      ∧ steps self = [fin]
      ∧ is_Repack fin = false
      ∧ is_RegisterModel fin = truthy (create_model_package_request a)
      ∧ is_CreateModel fin = negb (truthy (create_model_package_request a)).
Proof.
  intros Hwf Hm HX. split.
  { unfold _append_repack_model_step.
    change (_model (initial n a d rp dn ds)) with (model a). by rewrite Hm. }
  assert (patchable a = true) as Hp.
  { unfold patchable, flagged, constituents. by rewrite Hm. }
  destruct (ModelStep_init_spec n a d rp dn ds Hwf Hp)
    as (self & fin & Hinit & Hsteps & Hfin & Hreg & Hcr & _).
  exists self, fin. revert Hinit Hsteps.
  unfold expected_warnings, expected_repack_steps, flagged, constituents.
  rewrite Hm. destruct (truthy_set (need_runtime_repack a)) eqn:Hts.
  - intros -> ->. done.
  - by apply truthy_set_false in Hts.
Qed.

Lemma unrecognized_model_is_skipped_witness :
  ∃ self fin,
    ModelStep_init "MyModelStep" (IsModelStepArguments foreign_args)
      test_step RetryNone None None = Ok (self, ["No models to repack"])
    ∧ steps self = [fin] ∧ step_name fin = "MyModelStep-CreateModel".
Proof.
  destruct (unrecognized_model_is_skipped "MyModelStep" foreign_args
              test_step RetryNone None None (Some PipelineSession)
              eq_refl eq_refl)
    as (_ & self & fin & Hinit & Hsteps & _).
  { by vm_compute. }
  exists self, fin. split; [exact Hinit|]. split; [exact Hsteps|].
  vm_compute in Hinit. injection Hinit as <-.
  vm_compute in Hsteps. by injection Hsteps as <-.
Defined.

(** C10.  Whether the last step gets the caller's [depends_on] hangs on
    the indicator, not on the repack steps: under a non-empty indicator the
    create or register step has no dependency edges, and that also when no
    constituent model is named by it (the owning model is of neither model
    class, or none of its models is in the indicator), so that the step
    list is that one step and the caller's list is on no step. *)
Theorem indicator_suppresses_final_edges n a d rp dn ds :
  well_formed a = true → need_runtime_repack a ≠ ∅ →
  (∀ m, m ∈ constituents (model a) → model_id m ∉ need_runtime_repack a) →
  ∃ self w fin,
    ModelStep_init n (IsModelStepArguments a) d rp dn ds = Ok (self, w)
    ∧ steps self = [fin]
    ∧ is_Repack fin = false
    ∧ step_depends_on fin = None.
Proof.
  intros Hwf HX Hnone.
  assert (flagged (need_runtime_repack a) (constituents (model a)) = []) as Hfl.
  { unfold flagged, flagged_from.
    generalize 0. induction (constituents (model a)) as [|m ml IH]; intros i; [done|].
    simpl. rewrite filter_cons, decide_False.
    - apply IH. intros m' Hm'. apply Hnone. by right.
    - apply Hnone. by left. }
  assert (patchable a = true) as Hp by (unfold patchable; by rewrite Hfl).
  destruct (ModelStep_init_spec n a d rp dn ds Hwf Hp)
    as (self & fin & Hinit & Hsteps & Hfin & _ & _ & Hdep & _).
  exists self, (expected_warnings a), fin. split; [done|].
  unfold expected_repack_steps in Hsteps. rewrite Hfl in Hsteps.
  split; [done|]. split; [done|].
  rewrite Hdep. unfold final_depends_on.
  destruct (truthy_set (need_runtime_repack a)) eqn:Hts; [done|].
  by apply truthy_set_false in Hts.
Qed.

(** C10 on a model whose identity the indicator does not hold. *)
Lemma indicator_suppresses_final_edges_witness :
  ∃ self w fin,
    ModelStep_init "MyModelStep" (IsModelStepArguments stale_args)
      test_step RetryNone None None = Ok (self, w)
    ∧ steps self = [fin] ∧ step_depends_on fin = None.
Proof.
  destruct (indicator_suppresses_final_edges "MyModelStep" stale_args
              test_step RetryNone None None eq_refl)
    as (self & w & fin & Hinit & Hsteps & _ & Hdep).
  { by vm_compute. }
  { intros m [->|[]%elem_of_nil]%elem_of_cons. by vm_compute. }
  by exists self, w, fin.
Defined.

Section patch.
Implicit Types (self : ModelStep) (a : ModelStepArguments) (m : Model).

Lemma evolved_id self :
  self = evolved self (steps self) (create_model_request (step_args self))
           (create_model_package_request (step_args self)).
Proof. destruct self as [? [] ? ? ? ? ? ? ? ?]. done. Qed.

Lemma pending_request_patched a r' :
  is_None r' = false → pending_request (patched a r') = r'.
Proof.
  intros Hr. unfold pending_request. rewrite patched_is_None by done.
  unfold patched. by destruct (is_None (create_model_request a)).
Qed.

Lemma with_args_patched_id a r' :
  with_args a (create_model_request (patched a r'))
              (create_model_package_request (patched a r'))
  = patched a r'.
Proof. unfold patched. by destruct (is_None _). Qed.
End patch.

(** C4.  A turn of the repack loop for a named constituent whose container
    is in place appends the repack step and then assigns, in the pending
    request, a reference to that step's [ModelArtifacts.S3ModelArtifacts]
    to the [ModelDataUrl] of the matched container.  Whatever in the
    pending request is not reached through that field reads as before, the
    absent request stays absent, and of the object nothing but its steps
    and that request has changed. *)
Theorem patch_touches_only_ModelDataUrl self sn sg i m :
  runtime_repack_flg self m = true →
  has_container (step_args self) i = true →
  ∃ self' r',
    repack_iteration self sn sg i m = Ok self'
    ∧ self' = evolved self
                (steps self ++ [Repack (make_repack_step self sn sg i m)])
                (create_model_request (patched (step_args self) r'))
                (create_model_package_request (patched (step_args self) r'))
    ∧ pending_request (step_args self') = r'
    ∧ lookup_path (matched_container (step_args self) i ++ [KStr "ModelDataUrl"]) r'
      = Ok (VProp ("Steps." +:+ rp_name (make_repack_step self sn sg i m)
                   +:+ ".ModelArtifacts.S3ModelArtifacts"))
    ∧ (∀ q, diverge (matched_container (step_args self) i ++ [KStr "ModelDataUrl"]) q
            = true →
            lookup_path q r' = lookup_path q (pending_request (step_args self)))
    ∧ (if is_None (create_model_request (step_args self))
       then create_model_request (step_args self')
            = create_model_request (step_args self)
       else create_model_package_request (step_args self')
            = create_model_package_request (step_args self)).
Proof.
  intros Hflg Hhas. unfold repack_iteration. rewrite Hflg.
  set (rs := make_repack_step self sn sg i m).
  set (a := step_args self) in *.
  assert (append_step self (Repack rs)
          = evolved self (steps self ++ [Repack rs])
              (create_model_request a) (create_model_package_request a)) as ->.
  { rewrite (evolved_id self) at 1. done. }
  destruct (patch_container_spec self (steps self ++ [Repack rs])
              (create_model_request a) (create_model_package_request a)
              i (S3ModelArtifacts rs)) as (r' & Hup & Hpatch).
  { subst a. by rewrite with_args_id. }
  subst a. rewrite with_args_id in Hup, Hpatch.
  set (a := step_args self) in *.
  exists (evolved self (steps self ++ [Repack rs])
            (create_model_request (patched a r'))
            (create_model_package_request (patched a r'))), r'.
  split; [done|]. split; [done|].
  destruct (matched_container_cons a i) as (s & p & Hp).
  assert (is_None r' = false) as Hr'
      by (rewrite Hp in Hup; by eapply update_path_not_None).
  destruct (setitem_frame _ _ _ _ _ Hup) as [Hset Hframe].
  split.
  { change (step_args (evolved _ _ ?cr ?pk)) with (with_args a cr pk).
    rewrite with_args_patched_id. by apply pending_request_patched. }
  split; [done|]. split; [done|].
  unfold patched. by destruct (is_None (create_model_request a)).
Qed.

(** C4 on the second turn of the loop for
    [test_create_pipeline_model_with_runtime_repack]: the second container
    refers to the repack step, the first container and the model name are
    as they were. *)
Lemma patch_touches_only_ModelDataUrl_witness :
  let self := initial "MyModelStep" pipeline_create_args None RetryNone None None in
  ∃ self' r',
    repack_iteration self VNone VNone 1 my_model = Ok self'
    ∧ create_model_request (step_args self') = r'
    ∧ lookup_path [KStr "Containers"; KIdx 1; KStr "ModelDataUrl"] r'
      = Ok (VProp "Steps.MyModelStep-RepackModel-MyModel.ModelArtifacts.S3ModelArtifacts")
    ∧ lookup_path [KStr "Containers"; KIdx 0; KStr "ModelDataUrl"] r'
      = Ok model_data_param
    ∧ lookup_path [KStr "Containers"; KIdx 1; KStr "Image"] r'
      = Ok (VStr "fakeimage")
    ∧ lookup_path [KStr "ModelName"] r' = Ok (VStr "MyPipelineModel").
Proof.
  intros self.
  destruct (patch_touches_only_ModelDataUrl self VNone VNone 1 my_model)
    as (self' & r' & Hit & _ & Hpend & Hurl & Hframe & _).
  { by vm_compute. }
  { by vm_compute. }
  exists self', r'. split; [exact Hit|].
  split. { rewrite <-Hpend. vm_compute in Hit. by injection Hit as <-. }
  split; [exact Hurl|].
  split; [|split]; (rewrite Hframe; [by vm_compute|by vm_compute]).
Defined.

Section errors.
Implicit Types (self : ModelStep) (a : ModelStepArguments) (e : exn).

Lemma patch_container_error self i v e :
  patch_container self i v = Raise e → lookup_error e.
Proof.
  unfold patch_container.
  repeat match goal with |- context [if ?b then _ else _] => destruct b end.
  all: destruct (update_path _ _ _) as [r|e'] eqn:Hup; simpl; [done|].
  all: intros [= <-]; eapply update_path_error; [|exact Hup].
  all: intros c ?; apply setitem_error.
Qed.

Lemma repack_loop_error sn sg ml : ∀ self i e,
  repack_loop self sn sg i ml = Raise e → lookup_error e.
Proof.
  induction ml as [|m ml IH]; intros self i e; [done|].
  cbn [repack_loop].
  destruct (repack_iteration self sn sg i m) as [self'|e'] eqn:Hit; simpl.
  - apply IH.
  - intros [= <-]. unfold repack_iteration in Hit.
    destruct (runtime_repack_flg self m); [|done].
    by eapply patch_container_error.
Qed.

Lemma _append_repack_model_step_error self e :
  _append_repack_model_step self = Raise e → lookup_error e.
Proof.
  unfold _append_repack_model_step.
  destruct (model_list (_model self)) as [ml|]; [|done].
  destruct (vpc_settings (_model self)) as [sg sn].
  destruct (repack_loop self sn sg 0 ml) as [self'|e'] eqn:Hl; simpl; [done|].
  intros [= <-]. by eapply repack_loop_error.
Qed.

Lemma lookup_error_not_validation e :
  lookup_error e → ¬ validation_error e.
Proof.
  intros Hl [[-> | [-> | ->]] | ->]; vm_compute in Hl; try done.
  all: repeat (apply elem_of_cons in Hl as [Heq|Hl]; [discriminate Heq|]).
  all: by apply elem_of_nil in Hl.
Qed.

Lemma is_PipelineSession_spec (s : option Session) :
  is_PipelineSession s = true ↔ s = Some PipelineSession.
Proof. by destruct s as [[]|]. Qed.

Lemma xor_None (c p : pyval) :
  xorb (is_None c) (is_None p) = true ↔ (c = VNone ↔ p ≠ VNone).
Proof.
  rewrite <-(is_None_spec c), <-(is_None_spec p).
  destruct (is_None c), (is_None p); simpl; intuition congruence.
Qed.

Lemma well_formed_spec a :
  well_formed a = true ↔ ¬ malformed (IsModelStepArguments a).
Proof.
  unfold well_formed, malformed.
  rewrite andb_true_iff, is_PipelineSession_spec. split.
  - intros [HA%xor_None HB] [HnA|HnB]; [by apply HnA|by apply HnB].
  - intros Hn. split.
    + destruct (xorb _ _) eqn:Hx; [done|]. exfalso. apply Hn. left.
      intros HA%xor_None. congruence.
    + destruct (sagemaker_session (model a)) as [[]|]; try done.
      all: exfalso; apply Hn; by right.
Qed.
End errors.

Section checks.
Implicit Types (a : ModelStepArguments) (e : exn).

Lemma malformed_spec a :
  well_formed a = false → malformed (IsModelStepArguments a).
Proof.
  unfold well_formed, malformed. intros [Hx|Hs]%andb_false_iff.
  - left. intros HA%xor_None. congruence.
  - right. intros Hs'%is_PipelineSession_spec. congruence.
Qed.

(** A request that fails a check is turned down before anything is
    built. *)
Lemma ModelStep_init_malformed n a d rp dn ds :
  well_formed a = false →
  ∃ e, ModelStep_init n (IsModelStepArguments a) d rp dn ds = Raise e
       ∧ validation_error e.
Proof.
  unfold well_formed, ModelStep_init, validation_error, configuration_error.
  destruct (xorb _ _); simpl; [|eauto 6].
  destruct (model a) as [pm|m|s|]; simpl; [| | |eauto].
  all: destruct (is_PipelineSession _); simpl; [done|eauto 6].
Qed.

(** Past the checks, only the patching of a container can raise. *)
Lemma ModelStep_init_error n a d rp dn ds e :
  well_formed a = true →
  ModelStep_init n (IsModelStepArguments a) d rp dn ds = Raise e →
  lookup_error e.
Proof.
  intros [Hxor Hsess]%well_formed_checks.
  unfold ModelStep_init. rewrite Hxor, (getattr_PipelineSession _ Hsess).
  cbn [negb mbind result_bind]. rewrite Hsess. cbn [negb].
  destruct (truthy_set _); [|done].
  destruct (_append_repack_model_step _) as [[self w]|e'] eqn:Hst; [done|].
  simpl. intros [= <-]. by eapply _append_repack_model_step_error.
Qed.

(** The attribute error is that of a model object without a session, met
    once the first two checks are passed. *)
Lemma ModelStep_init_missing_session n args d rp dn ds :
  ModelStep_init n args d rp dn ds = Raise missing_session_attribute
  ↔ ∃ a, args = IsModelStepArguments a
         ∧ xorb (is_None (create_model_request a))
                (is_None (create_model_package_request a)) = true
         ∧ model a = ObjectWithoutSession.
Proof.
  split.
  - destruct args as [|a]; [done|]. intros Hinit. exists a. split; [done|].
    destruct (well_formed a) eqn:Hwf.
    { by apply ModelStep_init_error in Hinit. }
    unfold well_formed in Hwf. unfold ModelStep_init in Hinit.
    destruct (xorb _ _); simpl in Hwf, Hinit; [|done].
    split; [done|].
    destruct (model a) as [pm|m|s|]; simpl in Hwf, Hinit; [..|done].
    all: rewrite Hwf in Hinit; simpl in Hinit.
    all: unfold session_type_error, missing_session_attribute in Hinit.
    all: discriminate Hinit.
  - intros (a & -> & Hxor & Hm). unfold ModelStep_init.
    by rewrite Hxor, Hm.
Qed.
End checks.

(** C5, as the code has it.  The constructor turns a request down while
    it checks it, before any step is built, exactly when the request is
    malformed: the step arguments are not of the request-argument type, or
    not exactly one of the two requests is present, or the session of the
    model is not the pipeline-building one.  The error is one of the three
    configuration errors or, for a model object that has no session
    attribute and once the first two checks are passed, an attribute error.
    Passing the checks is not enough for a collection to be produced: a
    well-formed request is composed when the request that is present is a
    dictionary with content that holds a container dictionary for every
    constituent the indicator names, and each such constituent has an entry
    point. *)
Theorem configuration_errors_iff_malformed n args d rp dn ds :
  (malformed args ↔
     ∃ e, ModelStep_init n args d rp dn ds = Raise e ∧ validation_error e)
  ∧ (ModelStep_init n args d rp dn ds = Raise missing_session_attribute
     ↔ ∃ a, args = IsModelStepArguments a
            ∧ xorb (is_None (create_model_request a))
                   (is_None (create_model_package_request a)) = true
            ∧ model a = ObjectWithoutSession)
  ∧ (∀ a, args = IsModelStepArguments a → ¬ malformed args →
          patchable a = true → steps_constructible a = true →
          ∃ self w, ModelStep_init n args d rp dn ds = Ok (self, w)).
Proof.
  split; [|split; [apply ModelStep_init_missing_session|]].
  - destruct args as [|a].
    { split; [|done]. intros _. exists step_args_type_error.
      split; [done|]. left. by left. }
    destruct (well_formed a) eqn:Hwf.
    + assert (¬ malformed (IsModelStepArguments a)) as Hok
          by (by apply well_formed_spec).
      split; [done|]. intros (e & He & Hcfg). exfalso.
      apply (lookup_error_not_validation e); [|done].
      by eapply ModelStep_init_error.
    + split; [|by intros _; apply malformed_spec].
      intros _. by apply ModelStep_init_malformed.
  - intros a -> Hok%well_formed_spec Hp _.
    destruct (ModelStep_init_spec n a d rp dn ds Hok Hp)
      as (self & fin & Hinit & _).
    by exists self, (expected_warnings a).
Qed.

(** C5 on the request of [test_create_model_with_runtime_repack], which is
    well formed and composed, on a request without arguments of the right
    type, which is turned down with a configuration error, and on a request
    whose model is [None], which is turned down with the attribute
    error. *)
Lemma configuration_errors_iff_malformed_witness :
  (∃ self w,
     ModelStep_init "MyModelStep" (IsModelStepArguments create_args)
       None RetryNone None None = Ok (self, w))
  ∧ (∃ e, ModelStep_init "MyModelStep" NotModelStepArguments
            None RetryNone None None = Raise e
          ∧ validation_error e)
  ∧ ModelStep_init "MyModelStep" (IsModelStepArguments modelless_args)
      None RetryNone None None = Raise missing_session_attribute.
Proof.
  split; [|split].
  - apply (proj2 (proj2 (configuration_errors_iff_malformed "MyModelStep"
             (IsModelStepArguments create_args) None RetryNone None None))
             create_args eq_refl).
    + apply well_formed_spec. reflexivity.
    + by vm_compute.
    + by vm_compute.
  - apply (proj1 (configuration_errors_iff_malformed "MyModelStep"
             NotModelStepArguments None RetryNone None None)).
    exact I.
  - apply (proj1 (proj2 (configuration_errors_iff_malformed "MyModelStep"
             (IsModelStepArguments modelless_args) None RetryNone None None))).
    exists modelless_args. by vm_compute.
Defined.

(** The claim C5 as the specification words it fails: a request that
    passes the three checks, but holds no primary container for the model
    to repack, makes the constructor raise a [KeyError]. *)
Lemma well_formed_request_raises :
  ¬ malformed (IsModelStepArguments bare_create_args)
  ∧ ModelStep_init "MyModelStep" (IsModelStepArguments bare_create_args)
      None RetryNone None None = Raise (KeyError "PrimaryContainer").
Proof.
  split; [by apply well_formed_spec|by vm_compute].
Qed.

(** C1 at the request of lines 151-153.  The owning model is of neither
    model class and the indicator is not empty: no repack step is built,
    the create step is the only step of the collection, and it has none of
    the caller's dependency edges. *)
Theorem final_step_without_repack_drops_edges :
  ∃ self fin,
    ModelStep_init "MyModelStep" (IsModelStepArguments foreign_args)
      test_step RetryNone None None = Ok (self, ["No models to repack"])
    ∧ steps self = [fin]
    ∧ repack_steps (steps self) = []
    ∧ is_CreateModel fin = true
    ∧ edges (step_depends_on fin) = []
    ∧ edges test_step = [DepName "TestStep"].
Proof.
  eexists _, _. split; [by vm_compute|]. by vm_compute.
Qed.

(** ** Properties of the expressions *)

Section expressions.
Implicit Types (e v : Expression) (j : json) (s on : string).

Lemma serialize_Join on (vs : list Expression) :
  serialize (Join on vs)
  = (js ← serialize_values vs;
     mret (JObject {[ "Std:Join" :=
                        JObject {[ "On" := JStr on; "Values" := JList js ]} ]})).
Proof. reflexivity. Qed.

Lemma serialize_values_Forall2 (vs : list Expression) (js : list json) :
  serialize_values vs = Ok js ↔ Forall2 (λ v j, serialize v = Ok j) vs js.
Proof.
  revert js. induction vs as [|v vs IH]; intros js; cbn [serialize_values].
  - split; [intros [= <-]; constructor|by intros ->%Forall2_nil_inv_l].
  - split.
    + intros (j & Hj & (js' & Hjs & [= <-])%bind_Ok)%bind_Ok.
      constructor; [done|by apply IH].
    + intros (j & js' & Hj & Hjs & ->)%Forall2_cons_inv_l.
      rewrite Hj. simpl. apply IH in Hjs. by rewrite Hjs.
Qed.

Lemma prefix_append s t : String.prefix s (s +:+ t) = true.
Proof.
  induction s as [|c s IH]; simpl; [by destruct t|].
  by destruct (Ascii.ascii_dec c c).
Qed.

Lemma contains_append s t : contains s (s +:+ t) = true.
Proof.
  pose proof (prefix_append s t) as Hpre.
  destruct (s +:+ t); cbn [contains]; by rewrite Hpre.
Qed.
End expressions.

(** [test_to_string_on_join] and [test_to_string_on_json_get] *)
Example test_to_string :
  to_string (Join "" primitive_values) = Some (Join "" primitive_values)
  ∧ serialize <$> to_string (JsonGet (Literal (PStr "my-step"))
                               (PropertyFileName "my-property-file") "my-json-path")
    = Some (Ok (JObject {[ "Std:Join" :=
            JObject {[ "On" := JStr "";
                       "Values" :=
                         JList [JObject {[ "Std:JsonGet" :=
                           JObject {[ "Path" := JStr "my-json-path";
                                      "PropertyFile" :=
                                        Get "Steps.my-step.PropertyFiles.my-property-file" ]} ]}] ]} ]})).
Proof. split; [done|by vm_compute]. Qed.

(** [test_json_get_expressions_with_invalid_step_name] *)
Example test_json_get_expressions_with_invalid_step_name :
  serialize (JsonGet (Literal (PStr "")) (PropertyFileName "my-property-file")
               "my-json-path")
  = Raise (ValueError "Please give a valid step name as a string")
  ∧ serialize (JsonGet (ParameterReference "MyString")
                 (PropertyFileName "my-property-file") "my-json-path")
    = Raise (ValueError "Please give a valid step name as a string").
Proof. done. Qed.

(** C6.  The join of [1, "a", false, 1.1] under the default separator
    serializes to [{"Std:Join": {"On": "", "Values": [1, "a", false, 1.1]}}];
    another separator changes the ["On"] field and nothing else; and the
    values of a join are serialized in one pass, each by its own rule: a
    primitive to itself, a parameter to [{"Get": "Parameters.<name>"}], an
    execution variable to [{"Get": "Execution.<PascalName>"}], a property
    to [{"Get": "<path>"}], a nested join by the same rule. *)
Theorem join_serialization :
  serialize (Join "" primitive_values)
  = Ok (JObject {[ "Std:Join" :=
          JObject {[ "On" := JStr "";
                     "Values" := JList [JInt 1; JStr "a"; JBool false;
                                        JFloat (11 # 10)] ]} ]})
  ∧ (∀ on vs inner,
       serialize (Join "" vs) = Ok (JObject {[ "Std:Join" := JObject inner ]}) →
       serialize (Join on vs)
       = Ok (JObject {[ "Std:Join" := JObject (<[ "On" := JStr on ]> inner) ]}))
  ∧ (∀ on vs js,
       Forall2 (λ v j, serialize v = Ok j) vs js →
       serialize (Join on vs)
       = Ok (JObject {[ "Std:Join" :=
               JObject {[ "On" := JStr on; "Values" := JList js ]} ]}))
  ∧ (∀ b, serialize (Literal (PBool b)) = Ok (JBool b))
  ∧ (∀ z, serialize (Literal (PInt z)) = Ok (JInt z))
  ∧ (∀ q, serialize (Literal (PFloat q)) = Ok (JFloat q))
  ∧ (∀ s, serialize (Literal (PStr s)) = Ok (JStr s))
  ∧ (∀ name, serialize (ParameterReference name)
             = Ok (JObject {[ "Get" := JStr ("Parameters." +:+ name) ]}))
  ∧ (∀ name, serialize (ExecutionVariableReference name)
             = Ok (JObject {[ "Get" := JStr ("Execution." +:+ name) ]}))
  ∧ (∀ path, serialize (PropertyReference path)
             = Ok (JObject {[ "Get" := JStr path ]}))
  ∧ serialize
      (Join "" [Literal (PStr "foo");
                ParameterReference "MyFloat";
                ParameterReference "MyInt";
                ParameterReference "MyStr";
                PropertyReference "Steps.foo.OutputPath.S3Uri";
                PIPELINE_EXECUTION_ID;
                Join "," primitive_values])
    = Ok (JObject {[ "Std:Join" :=
            JObject {[ "On" := JStr "";
                       "Values" :=
                         JList [JStr "foo";
                                Get "Parameters.MyFloat";
                                Get "Parameters.MyInt";
                                Get "Parameters.MyStr";
                                Get "Steps.foo.OutputPath.S3Uri";
                                Get "Execution.PipelineExecutionId";
                                JObject {[ "Std:Join" :=
                                  JObject {[ "On" := JStr ",";
                                             "Values" :=
                                               JList [JInt 1; JStr "a"; JBool false;
                                                      JFloat (11 # 10)] ]} ]}] ]} ]}).
Proof.
  split; [done|]. split; [|split].
  - intros on vs inner. rewrite !serialize_Join.
    destruct (serialize_values vs) as [js|]; [|done]. simpl.
    intros Heq.
    apply (f_equal (λ r, match r with
                         | Ok j => json_fields <$> json_fields j !! "Std:Join"
                         | Raise _ => None
                         end)) in Heq.
    cbn [json_fields mret result_ret] in Heq.
    rewrite !lookup_singleton_eq in Heq.
    cbn [fmap option_fmap option_map json_fields] in Heq.
    assert (inner = {[ "On" := JStr ""; "Values" := JList js ]}) as ->
        by congruence.
    by rewrite insert_insert_eq.
  - intros on vs js Hall. rewrite serialize_Join.
    apply serialize_values_Forall2 in Hall. by rewrite Hall.
  - repeat split; done.
Qed.

(** C6 on [test_join_primitives]: the separator [","]. *)
Lemma join_serialization_witness :
  serialize (Join "," primitive_values)
  = Ok (JObject {[ "Std:Join" :=
          JObject {[ "On" := JStr ",";
                     "Values" := JList [JInt 1; JStr "a"; JBool false;
                                        JFloat (11 # 10)] ]} ]}).
Proof.
  apply (proj1 (proj2 (proj2 join_serialization))).
  repeat constructor.
Defined.

(** C7.  A JSON-path extraction serializes exactly when its step name is
    a concrete, non-empty string; it then yields
    [{"Std:JsonGet": {"PropertyFile":
        {"Get": "Steps.<step_name>.PropertyFiles.<file-name>"},
      "Path": <json_path>}}],
    the file name being the property-file argument when that is a string
    and the name of the [PropertyFile] object otherwise.  With any other
    step name it raises a value error whose message holds
    ["valid step name"]. *)
Theorem json_get_serialization step_name property_file json_path :
  ((∃ j, serialize (JsonGet step_name property_file json_path) = Ok j)
   ↔ ∃ s, step_name = Literal (PStr s) ∧ s ≠ "")
  ∧ (∀ s, step_name = Literal (PStr s) → s ≠ "" →
       serialize (JsonGet step_name property_file json_path)
       = Ok (JObject {[ "Std:JsonGet" :=
               JObject {[ "PropertyFile" :=
                            JObject {[ "Get" :=
                              JStr ("Steps." +:+ s +:+ ".PropertyFiles."
                                    +:+ file_name property_file) ]};
                          "Path" := JStr json_path ]} ]}))
  ∧ (∀ s, property_file = PropertyFileName s → file_name property_file = s)
  ∧ (∀ f, property_file = PropertyFileObject f →
          file_name property_file = pf_name f)
  ∧ ((¬ ∃ s, step_name = Literal (PStr s) ∧ s ≠ "") →
     ∃ msg, serialize (JsonGet step_name property_file json_path)
            = Raise (ValueError msg)
            ∧ contains "valid step name" msg = true).
Proof.
  assert (∀ s, s ≠ "" →
            serialize (JsonGet (Literal (PStr s)) property_file json_path)
            = Ok (JObject {[ "Std:JsonGet" :=
                    JObject {[ "PropertyFile" :=
                                 JObject {[ "Get" :=
                                   JStr ("Steps." +:+ s +:+ ".PropertyFiles."
                                         +:+ file_name property_file) ]};
                               "Path" := JStr json_path ]} ]})) as Hok.
  { intros s Hs. cbn [serialize].
    by destruct (String.eqb_spec s ""). }
  assert ((¬ ∃ s, step_name = Literal (PStr s) ∧ s ≠ "") →
          serialize (JsonGet step_name property_file json_path)
          = Raise invalid_step_name) as Hbad.
  { intros Hn. cbn [serialize].
    destruct step_name as [[| | |s]| | | | |]; try done.
    destruct (String.eqb_spec s ""); [done|]. destruct Hn. eauto. }
  split; [|split; [|split; [|split]]].
  - split.
    + intros [j Hj].
      destruct step_name as [[| | |s]| | | | |]; try done.
      exists s. split; [done|]. intros ->. done.
    + intros (s & -> & Hs). rewrite Hok by done. eauto.
  - intros s -> Hs. by apply Hok.
  - by intros s ->.
  - by intros f ->.
  - intros Hn. rewrite Hbad by done. eexists. split; [done|]. by vm_compute.
Qed.

(** C7 on [test_json_get_expressions] with a [PropertyFile] object. *)
Lemma json_get_serialization_witness :
  serialize (JsonGet (Literal (PStr "my-step"))
               (PropertyFileObject
                  {| pf_name := "name"; pf_output_name := "result";
                     pf_path := "output" |})
               "my-json-path")
  = Ok (JObject {[ "Std:JsonGet" :=
          JObject {[ "PropertyFile" :=
                       JObject {[ "Get" := JStr "Steps.my-step.PropertyFiles.name" ]};
                     "Path" := JStr "my-json-path" ]} ]}).
Proof.
  apply (proj1 (proj2 (json_get_serialization (Literal (PStr "my-step"))
           (PropertyFileObject
              {| pf_name := "name"; pf_output_name := "result";
                 pf_path := "output" |})
           "my-json-path")) "my-step" eq_refl).
  discriminate.
Defined.

(** C8.  On a join or a JSON-path extraction, [str], [int] and [float]
    each raise a type error saying that pipeline variables do not support
    that very operation, [+] raises a type error that mentions
    concatenation, and [startswith] and [endswith] raise nothing and
    answer [False]. *)
Theorem native_operations_are_refused str_hint e other affix :
  is_function e = true →
  (∃ msg, __str__ str_hint e = Raise (TypeError msg)
          ∧ contains "Pipeline variables do not support __str__ operation." msg
            = true)
  ∧ __int__ e
    = Raise (TypeError "Pipeline variables do not support __int__ operation.")
  ∧ __float__ e
    = Raise (TypeError "Pipeline variables do not support __float__ operation.")
  ∧ (∃ msg, __add__ e other = Raise (TypeError msg)
            ∧ contains "Pipeline variables do not support" msg = true
            ∧ contains "concatenation" msg = true)
  ∧ startswith e affix = Ok false
  ∧ endswith e affix = Ok false.
Proof.
  intros _. split; [|split; [done|split; [done|split; [|done]]]].
  - eexists. split; [done|].
    apply (contains_append "Pipeline variables do not support __str__ operation.").
  - eexists. split; [done|]. by vm_compute.
Qed.

(** C8 on the extraction of [test_implicit_value_on_json_get]. *)
Lemma native_operations_are_refused_witness :
  __int__ (JsonGet (Literal (PStr "my-step"))
             (PropertyFileName "my-property-file") "my-json-path")
  = Raise (TypeError "Pipeline variables do not support __int__ operation.")
  ∧ startswith (Join "," [Literal (PStr "s3:/"); Literal (PStr "my-bucket");
                          Literal (PStr "a")]) "s3"
    = Ok false.
Proof.
  split.
  - apply (native_operations_are_refused ""
             (JsonGet (Literal (PStr "my-step"))
                (PropertyFileName "my-property-file") "my-json-path")
             (Literal (PInt 3)) "s3" eq_refl).
  - apply (native_operations_are_refused ""
             (Join "," [Literal (PStr "s3:/"); Literal (PStr "my-bucket");
                        Literal (PStr "a")])
             (Literal (PInt 3)) "s3" eq_refl).
Defined.


(** ** The requests after the repack stage *)

Section wiring.
Implicit Types (self : ModelStep) (a : ModelStepArguments) (m : Model).

Lemma matched_container_patched a r' j :
  is_None r' = false →
  matched_container (patched a r') j = matched_container a j.
Proof.
  intros Hr. unfold matched_container. rewrite patched_is_None by done.
  unfold patched. by destruct (is_None (create_model_request a)).
Qed.

Lemma flagged_from_ge X i (ml : list Model) im :
  im ∈ flagged_from X i ml → i ≤ im.1.
Proof.
  revert i. induction ml as [|m ml IH]; intros i.
  - intros []%elem_of_nil.
  - rewrite flagged_from_cons. case_decide.
    + intros [->|Hin%IH]%elem_of_cons; simpl; lia.
    + intros Hin%IH. lia.
Qed.

(** The loop, with what it leaves in the requests: what no patched field
    leads to reads as before, and each patched field that no later patch
    reaches holds the reference to its own repack step. *)
Lemma repack_loop_wiring self sn sg ml : ∀ i st cr pk,
  Forall (λ im, has_container (with_args (step_args self) cr pk) im.1 = true)
         (flagged_from (need_runtime_repack (step_args self)) i ml) →
  ∃ cr' pk',
    repack_loop (evolved self st cr pk) sn sg i ml
    = Ok (evolved self
            (st ++ ((λ im, Repack (make_repack_step self sn sg im.1 im.2))
                      <$> flagged_from (need_runtime_repack (step_args self)) i ml))
            cr' pk')
    ∧ is_None cr' = is_None cr ∧ truthy pk' = truthy pk
    ∧ (flagged_from (need_runtime_repack (step_args self)) i ml = [] →
       cr' = cr ∧ pk' = pk)
    ∧ (∀ q,
         Forall (λ im, diverge
                   (ModelDataUrl_path (with_args (step_args self) cr pk) im.1) q
                 = true)
                (flagged_from (need_runtime_repack (step_args self)) i ml) →
         lookup_path q (pending_request (with_args (step_args self) cr' pk'))
         = lookup_path q (pending_request (with_args (step_args self) cr pk)))
    ∧ ((∀ j j', j ≠ j' →
          (∃ m, (j, m) ∈ flagged_from (need_runtime_repack (step_args self)) i ml) →
          (∃ m, (j', m) ∈ flagged_from (need_runtime_repack (step_args self)) i ml) →
          diverge (ModelDataUrl_path (with_args (step_args self) cr pk) j)
                  (ModelDataUrl_path (with_args (step_args self) cr pk) j')
          = true) →
       Forall (λ im,
                 lookup_path
                   (ModelDataUrl_path (with_args (step_args self) cr pk) im.1)
                   (pending_request (with_args (step_args self) cr' pk'))
                 = Ok (S3ModelArtifacts (make_repack_step self sn sg im.1 im.2)))
              (flagged_from (need_runtime_repack (step_args self)) i ml))
    ∧ (is_None cr = false → pk' = pk).
Proof.
  induction ml as [|m ml IH]; intros i st cr pk Hall.
  - exists cr, pk. simpl. rewrite app_nil_r.
    by repeat split.
  - rewrite flagged_from_cons in Hall |- *.
    cbn [repack_loop]. unfold repack_iteration.
    rewrite runtime_repack_flg_spec.
    change (_need_runtime_repack (evolved self st cr pk))
      with (need_runtime_repack (step_args self)).
    destruct (decide (model_id m ∈ need_runtime_repack (step_args self)))
      as [Hin|Hin].
    + rewrite (bool_decide_eq_true_2 _ Hin).
      apply Forall_cons in Hall as [Hi Hall]. simpl in Hi.
      set (a0 := with_args (step_args self) cr pk) in *.
      set (s := make_repack_step (evolved self st cr pk) sn sg i m).
      change (append_step (evolved self st cr pk) (Repack s))
        with (evolved self (st ++ [Repack s]) cr pk).
      destruct (patch_container_spec self (st ++ [Repack s]) cr pk i
                  (S3ModelArtifacts s) Hi) as (r' & Hup & ->).
      fold a0 in Hup |- *.
      cbn [mbind result_bind].
      destruct (patched_requests _ _ _ _ Hi Hup) as [Hnone Htruthy].
      destruct (matched_container_cons a0 i) as (s0 & p0 & Hp0).
      assert (is_None r' = false) as Hr'
          by (rewrite Hp0 in Hup; by eapply update_path_not_None).
      destruct (setitem_frame _ _ _ _ _ Hup) as [Hset Hframe].
      destruct (IH (S i) (st ++ [Repack s])
                  (create_model_request (patched a0 r'))
                  (create_model_package_request (patched a0 r')))
        as (cr' & pk' & -> & Hn' & Ht' & _ & HF & HT & Hpk).
      { subst a0. rewrite with_args_patched. eapply Forall_impl; [exact Hall|].
        intros im. by apply has_container_patched with (i := i) (v := S3ModelArtifacts s). }
      assert (with_args (step_args self)
                (create_model_request (patched a0 r'))
                (create_model_package_request (patched a0 r'))
              = patched a0 r') as Hpa
          by (subst a0; apply with_args_patched).
      rewrite Hpa in HF, HT.
      assert (∀ j, ModelDataUrl_path (patched a0 r') j = ModelDataUrl_path a0 j)
        as Hpath.
      { intros j. unfold ModelDataUrl_path.
        by rewrite matched_container_patched. }
      exists cr', pk'. rewrite <-(assoc_L (++)). split; [done|].
      split; [by rewrite Hn'|]. split; [by rewrite Ht'|].
      split; [done|]. split; [|split].
      * intros q [Hq Hqs]%Forall_cons. simpl in Hq.
        rewrite HF.
        -- rewrite pending_request_patched by done. by apply Hframe.
        -- eapply Forall_impl; [exact Hqs|]. intros im. cbv beta.
           by rewrite Hpath.
      * intros Hsep. constructor.
        -- simpl. rewrite HF.
           ++ by rewrite pending_request_patched.
           ++ apply Forall_forall. intros [j m'] Hj. cbv beta. cbn [fst].
              rewrite Hpath. apply Hsep.
              ** apply flagged_from_ge in Hj. simpl in Hj. lia.
              ** exists m'. by right.
              ** exists m. by left.
        -- eapply Forall_impl.
           ++ apply HT. intros j j' Hne [mj Hj] [mj' Hj']. rewrite !Hpath.
              apply Hsep; [done|exists mj; by right|exists mj'; by right].
           ++ intros im. cbv beta. by rewrite Hpath.
      * intros Hn0. rewrite Hpk by (by rewrite Hnone).
        unfold patched. subst a0.
        cbn [create_model_request create_model_package_request with_args].
        by rewrite Hn0.
    + rewrite (bool_decide_eq_false_2 _ Hin). cbn [mbind result_bind mret result_ret].
      by apply IH.
Qed.
End wiring.

Section stage.
Implicit Types (self : ModelStep) (a : ModelStepArguments) (m : Model).
Implicit Types (d : option (list Dependency)).

Lemma ModelDataUrl_path_diverge a j j' :
  j ≠ j' →
  is_None (create_model_request a) = true ∨ is_PipelineModel (model a) = true →
  diverge (ModelDataUrl_path a j) (ModelDataUrl_path a j') = true.
Proof.
  intros Hne Hcase. unfold ModelDataUrl_path, matched_container.
  destruct (is_None (create_model_request a)).
  - simpl. repeat case_decide; naive_solver.
  - destruct Hcase as [?|Hpm]; [done|].
    destruct (model a); try done.
    simpl. repeat case_decide; naive_solver.
Qed.

Lemma S3ModelArtifacts_reference n a d rp dn ds sn sg i m :
  S3ModelArtifacts (make_repack_step (initial n a d rp dn ds) sn sg i m)
  = repack_reference n i m.
Proof. reflexivity. Qed.

(** The repack stage on the fresh object, with what it leaves in the
    requests. *)
Lemma repack_stage_wiring n a d rp dn ds :
  patchable a = true →
  ∃ cr' pk',
    (if truthy_set (need_runtime_repack a)
     then _append_repack_model_step (initial n a d rp dn ds)
     else mret (initial n a d rp dn ds, []))
    = Ok (evolved (initial n a d rp dn ds)
            (Repack <$> expected_repack_steps n a d rp dn ds) cr' pk',
          expected_warnings a)
    ∧ is_None cr' = is_None (create_model_request a)
    ∧ truthy pk' = truthy (create_model_package_request a)
    ∧ (flagged (need_runtime_repack a) (constituents (model a)) = [] →
       cr' = create_model_request a ∧ pk' = create_model_package_request a)
    ∧ (∀ q,
         Forall (λ im, diverge (ModelDataUrl_path a im.1) q = true)
                (flagged (need_runtime_repack a) (constituents (model a))) →
         lookup_path q (pending_request (with_args a cr' pk'))
         = lookup_path q (pending_request a))
    ∧ Forall (λ im,
                lookup_path (ModelDataUrl_path a im.1)
                            (pending_request (with_args a cr' pk'))
                = Ok (repack_reference n im.1 im.2))
             (flagged (need_runtime_repack a) (constituents (model a)))
    ∧ (is_None (create_model_request a) = false →
       pk' = create_model_package_request a).
Proof.
  intros Hp. unfold expected_repack_steps, expected_warnings, flagged, constituents.
  destruct (truthy_set (need_runtime_repack a)) eqn:HX.
  - unfold _append_repack_model_step.
    change (_model (initial n a d rp dn ds)) with (model a).
    destruct (model_list (model a)) as [ml|] eqn:Hml.
    + destruct (vpc_settings (model a)) as [sg sn] eqn:Hvpc.
      apply patchable_Forall in Hp. unfold constituents in Hp.
      rewrite Hml in Hp. cbn [default from_option id fst snd] in Hp |- *.
      cbv beta iota.
      destruct (repack_loop_wiring (initial n a d rp dn ds) sn sg ml 0 []
                  (create_model_request a) (create_model_package_request a))
        as (cr' & pk' & Hloop & Hn & Ht & Hsame & HF & HT & Hpk).
      { change (step_args (initial n a d rp dn ds)) with a.
        by rewrite with_args_id. }
      rewrite <-evolved_initial in Hloop.
      change (step_args (initial n a d rp dn ds)) with a in *.
      rewrite with_args_id in HF, HT.
      exists cr', pk'. rewrite Hloop.
      cbn [mbind result_bind mret result_ret app].
      rewrite <-list_fmap_compose.
      split; [by destruct (model a)|].
      split; [done|]. split; [done|]. split; [done|]. split; [done|].
      split; [|done].
      apply HT. intros j j' Hne [mj Hj] [mj' Hj'].
      destruct (model a) as [pm|m0| |] eqn:Hm; [| |done..].
      * apply ModelDataUrl_path_diverge; [done|]. right. by rewrite Hm.
      * injection Hml as <-. exfalso. apply Hne.
        rewrite flagged_from_cons in Hj, Hj'. case_decide.
        -- apply elem_of_cons in Hj as [[= -> _]|[]%elem_of_nil].
           by apply elem_of_cons in Hj' as [[= -> _]|[]%elem_of_nil].
        -- by apply elem_of_nil in Hj.
    + exists (create_model_request a), (create_model_package_request a).
      cbn [mret result_ret default from_option]. rewrite <-evolved_initial.
      rewrite with_args_id. unfold flagged_from. cbn [enumerate].
      rewrite filter_nil.
      split; [by destruct (model a)|]. by repeat split.
  - apply truthy_set_false in HX. rewrite HX, flagged_from_empty.
    exists (create_model_request a), (create_model_package_request a).
    cbn [mret result_ret fmap list_fmap]. rewrite <-evolved_initial, with_args_id.
    by repeat split.
Qed.

(** The constructor, with what the repack stage leaves in the requests. *)
Lemma ModelStep_init_wiring n a d rp dn ds :
  well_formed a = true → patchable a = true →
  ∃ cr' pk',
    ModelStep_init n (IsModelStepArguments a) d rp dn ds
    = Ok (with_final_step
            (evolved (initial n a d rp dn ds)
               (Repack <$> expected_repack_steps n a d rp dn ds) cr' pk'),
          expected_warnings a)
    ∧ is_None cr' = is_None (create_model_request a)
    ∧ truthy pk' = truthy (create_model_package_request a)
    ∧ (flagged (need_runtime_repack a) (constituents (model a)) = [] →
       cr' = create_model_request a ∧ pk' = create_model_package_request a)
    ∧ (∀ q,
         Forall (λ im, diverge (ModelDataUrl_path a im.1) q = true)
                (flagged (need_runtime_repack a) (constituents (model a))) →
         lookup_path q (pending_request (with_args a cr' pk'))
         = lookup_path q (pending_request a))
    ∧ Forall (λ im,
                lookup_path (ModelDataUrl_path a im.1)
                            (pending_request (with_args a cr' pk'))
                = Ok (repack_reference n im.1 im.2))
             (flagged (need_runtime_repack a) (constituents (model a)))
    ∧ (is_None (create_model_request a) = false →
       pk' = create_model_package_request a).
Proof.
  intros [Hxor Hsess]%well_formed_checks Hp.
  unfold ModelStep_init. rewrite Hxor, (getattr_PipelineSession _ Hsess).
  cbn [negb mbind result_bind]. rewrite Hsess. cbn [negb].
  change (_need_runtime_repack (initial n a d rp dn ds))
    with (need_runtime_repack a).
  destruct (repack_stage_wiring n a d rp dn ds Hp) as (cr' & pk' & -> & Hrest).
  exists cr', pk'. split; [done|exact Hrest].
Qed.
End stage.

(** ** What the steps of a composition carry *)

Section carried.
Implicit Types (self : ModelStep) (a : ModelStepArguments) (m : Model).
Implicit Types (d : option (list Dependency)).

(** The last step, spelled out. *)
Lemma with_final_step_evolved self st cr pk :
  with_final_step (evolved self st cr pk)
  = evolved self
      (st ++ [if truthy pk
              then RegisterModel
                     {| st_name := name self +:+ "-RegisterModel";
                        st_step_args := pk;
                        st_display_name := display_name self;
                        st_retry_policies := _register_model_retry_policies self;
                        st_description := description self;
                        st_depends_on :=
                          final_depends_on (need_runtime_repack (step_args self))
                                           (depends_on self) |}
              else CreateModel
                     {| st_name := name self +:+ "-CreateModel";
                        st_step_args := cr;
                        st_display_name := display_name self;
                        st_retry_policies := _create_model_retry_policies self;
                        st_description := description self;
                        st_depends_on :=
                          final_depends_on (need_runtime_repack (step_args self))
                                           (depends_on self) |}])
      cr pk.
Proof.
  unfold with_final_step, final_depends_on.
  change (_register_model_args (evolved self st cr pk)) with pk.
  unfold _append_register_model_step, _append_create_model_step.
  change (_need_runtime_repack (evolved self st cr pk))
    with (need_runtime_repack (step_args self)).
  change (depends_on (evolved self st cr pk)) with (depends_on self).
  destruct (truthy pk), (truthy_set _); cbn [negb]; try done.
  all: by destruct (depends_on self) as [[|x l]|].
Qed.

Lemma expected_repack_steps_nil n a d rp dn ds :
  flagged (need_runtime_repack a) (constituents (model a)) = [] →
  expected_repack_steps n a d rp dn ds = [].
Proof. unfold expected_repack_steps. by intros ->. Qed.

Lemma not_named_flagged a :
  (∀ m, m ∈ constituents (model a) → model_id m ∉ need_runtime_repack a) →
  flagged (need_runtime_repack a) (constituents (model a)) = [].
Proof.
  intros Hnone. unfold flagged, flagged_from. generalize 0.
  induction (constituents (model a)) as [|m ml IH]; intros i; [done|].
  simpl. rewrite filter_cons, decide_False.
  - apply IH. intros m' Hm'. apply Hnone. by right.
  - apply Hnone. by left.
Qed.

Lemma flagged_nil_patchable a :
  flagged (need_runtime_repack a) (constituents (model a)) = [] →
  patchable a = true.
Proof. unfold patchable. by intros ->. Qed.
End carried.

(** X1.  When the indicator names none of the constituent models (it is
    empty, or holds other identities, or the owning model is of neither
    model class), a request that passes the checks and whose one request
    is a dictionary with content is composed into the single create or
    register step, and that step carries the request as it was given:
    nothing in either request has changed. *)
Theorem nothing_named_request_untouched n a d rp dn ds :
  well_formed a = true → truthy (pending_request a) = true →
  (∀ m, m ∈ constituents (model a) → model_id m ∉ need_runtime_repack a) →
  ∃ self w fin r,
    ModelStep_init n (IsModelStepArguments a) d rp dn ds = Ok (self, w)
    ∧ steps self = [fin]
    ∧ request_step fin = Some r
    ∧ st_step_args r = pending_request a
    ∧ step_args self = a.
Proof.
  intros Hwf Htr Hfl%not_named_flagged.
  destruct (ModelStep_init_wiring n a d rp dn ds Hwf (flagged_nil_patchable a Hfl))
    as (cr' & pk' & Hinit & _ & _ & Hsame & _).
  destruct (Hsame Hfl) as [-> ->].
  rewrite with_final_step_evolved, expected_repack_steps_nil in Hinit by done.
  change (step_args (initial n a d rp dn ds)) with a in Hinit.
  pose proof (register_args_present a Hwf Htr) as Hpk.
  apply well_formed_checks in Hwf as [Hxor _].
  unfold pending_request.
  destruct (truthy (create_model_package_request a)),
           (is_None (create_model_package_request a)),
           (is_None (create_model_request a)); try done;
    eexists _, _, _, _; (split; [exact Hinit|]);
    cbn [steps evolved fmap list_fmap app step_args request_step st_step_args];
    (split; [reflexivity|]); (split; [reflexivity|]); (split; [reflexivity|]);
    apply with_args_id.
Qed.

Lemma nothing_named_request_untouched_witness :
  ∃ self w fin r,
    ModelStep_init "MyModelStep" (IsModelStepArguments stale_args)
      test_step RetryNone None None = Ok (self, w)
    ∧ steps self = [fin]
    ∧ request_step fin = Some r
    ∧ st_step_args r = create_model_request stale_args.
Proof.
  destruct (nothing_named_request_untouched "MyModelStep" stale_args
              test_step RetryNone None None eq_refl eq_refl)
    as (self & w & fin & r & Hinit & Hsteps & Hr & Hargs & _).
  { intros m [->|[]%elem_of_nil]%elem_of_cons. by vm_compute. }
  by exists self, w, fin, r.
Defined.

(** X2.  With an empty indicator a request that passes the checks and
    whose one request is a dictionary with content is composed, without
    any warning, into the single create or register step, and that step
    has exactly the caller's dependency edges. *)
Theorem empty_indicator_keeps_edges n a d rp dn ds :
  well_formed a = true → truthy (pending_request a) = true →
  need_runtime_repack a = ∅ →
  ∃ self fin,
    ModelStep_init n (IsModelStepArguments a) d rp dn ds = Ok (self, [])
    ∧ steps self = [fin]
    ∧ is_Repack fin = false
    ∧ edges (step_depends_on fin) = edges d.
Proof.
  intros Hwf _ HX.
  assert (flagged (need_runtime_repack a) (constituents (model a)) = []) as Hfl
    by (unfold flagged; rewrite HX; apply flagged_from_empty).
  destruct (ModelStep_init_spec n a d rp dn ds Hwf (flagged_nil_patchable a Hfl))
    as (self & fin & Hinit & Hsteps & Hfin & _ & _ & Hdep & _).
  exists self, fin.
  rewrite expected_repack_steps_nil in Hsteps by done.
  unfold expected_warnings in Hinit. rewrite HX in Hinit, Hdep.
  split; [done|]. split; [done|]. split; [done|].
  rewrite Hdep. by destruct d as [[|x l]|].
Qed.

Lemma empty_indicator_keeps_edges_witness :
  ∃ self fin,
    ModelStep_init "MyModelStep" (IsModelStepArguments plain_create_args)
      test_step RetryNone None None = Ok (self, [])
    ∧ steps self = [fin]
    ∧ edges (step_depends_on fin) = [DepName "TestStep"].
Proof.
  destruct (empty_indicator_keeps_edges "MyModelStep" plain_create_args
              test_step RetryNone None None eq_refl eq_refl eq_refl)
    as (self & fin & Hinit & Hsteps & _ & Hdep).
  by exists self, fin.
Defined.

(** X3.  When the composition holds a repack step, the caller's
    [depends_on] is on every repack step and the create or register step
    has no dependency edge of its own. *)
Theorem repack_steps_take_the_edges n a d rp dn ds :
  well_formed a = true → patchable a = true →
  ∃ self w,
    ModelStep_init n (IsModelStepArguments a) d rp dn ds = Ok (self, w)
    ∧ (repack_steps (steps self) ≠ [] →
       ∀ s, s ∈ steps self →
            if is_Repack s then step_depends_on s = d
            else step_depends_on s = None).
Proof.
  intros Hwf Hp.
  destruct (ModelStep_init_spec n a d rp dn ds Hwf Hp)
    as (self & fin & Hinit & Hsteps & Hfin & _ & _ & Hdep & _).
  exists self, (expected_warnings a). split; [done|].
  rewrite Hsteps, repack_steps_app_final by done.
  intros Hne s [Hs | ->%list_elem_of_singleton]%elem_of_app.
  - apply list_elem_of_fmap in Hs as (r & -> & Hr). simpl.
    unfold expected_repack_steps in Hr.
    by apply list_elem_of_fmap in Hr as (im & -> & _).
  - rewrite Hfin, Hdep. unfold final_depends_on.
    destruct (truthy_set (need_runtime_repack a)) eqn:HX; [done|].
    apply truthy_set_false in HX. exfalso. apply Hne.
    unfold expected_repack_steps, flagged. by rewrite HX, flagged_from_empty.
Qed.

Lemma repack_steps_take_the_edges_witness :
  ∃ self w,
    ModelStep_init "MyModelStep" (IsModelStepArguments register_args)
      test_step RetryNone None None = Ok (self, w)
    ∧ step_depends_on <$> steps self = [test_step; None].
Proof.
  destruct (repack_steps_take_the_edges "MyModelStep" register_args
              test_step RetryNone None None eq_refl eq_refl)
    as (self & w & Hinit & _).
  exists self, w. split; [exact Hinit|].
  vm_compute in Hinit. injection Hinit as <- _. by vm_compute.
Defined.

Section attributes.
Implicit Types (self : ModelStep) (a : ModelStepArguments) (m : Model).
Implicit Types (d : option (list Dependency)).

(** The steps of a composition, spelled out. *)
Lemma ModelStep_init_steps n a d rp dn ds :
  well_formed a = true → patchable a = true →
  ∃ self cr' pk',
    ModelStep_init n (IsModelStepArguments a) d rp dn ds
    = Ok (self, expected_warnings a)
    ∧ truthy pk' = truthy (create_model_package_request a)
    ∧ steps self
      = (Repack <$> expected_repack_steps n a d rp dn ds)
        ++ [if truthy pk'
            then RegisterModel
                   {| st_name := n +:+ "-RegisterModel";
                      st_step_args := pk';
                      st_display_name := dn;
                      st_retry_policies :=
                        retry_bucket rp _REGISTER_MODEL_RETRY_POLICIES;
                      st_description := ds;
                      st_depends_on := final_depends_on (need_runtime_repack a) d |}
            else CreateModel
                   {| st_name := n +:+ "-CreateModel";
                      st_step_args := cr';
                      st_display_name := dn;
                      st_retry_policies :=
                        retry_bucket rp _CREATE_MODEL_RETRY_POLICIES;
                      st_description := ds;
                      st_depends_on := final_depends_on (need_runtime_repack a) d |}].
Proof.
  intros Hwf Hp.
  destruct (ModelStep_init_wiring n a d rp dn ds Hwf Hp)
    as (cr' & pk' & Hinit & _ & Ht & _).
  rewrite with_final_step_evolved in Hinit.
  eexists _, cr', pk'. split; [exact Hinit|]. split; [done|]. reflexivity.
Qed.

Lemma elem_of_expected_repack_steps n a d rp dn ds r :
  r ∈ expected_repack_steps n a d rp dn ds →
  ∃ i m, (i, m) ∈ flagged (need_runtime_repack a) (constituents (model a))
         ∧ r = make_repack_step (initial n a d rp dn ds)
                 (vpc_settings (model a)).2 (vpc_settings (model a)).1 i m.
Proof.
  unfold expected_repack_steps.
  intros ([i m] & -> & Him)%list_elem_of_fmap. by exists i, m.
Qed.

Lemma vpc_settings_lookup (r : ModelRef) :
  vpc_settings r
  = (default VNone (vpc_config r ≫= λ v, v !! "SecurityGroupIds"),
     default VNone (vpc_config r ≫= λ v, v !! "Subnets")).
Proof.
  unfold vpc_settings, dict_get. destruct (vpc_config r) as [v|]; [|done].
  simpl. destruct (size v =? 0) eqn:Hsz; [|done]. simpl.
  apply Nat.eqb_eq, map_size_empty_iff in Hsz. subst v.
  by rewrite !lookup_empty.
Qed.
End attributes.

(** X4.  Each step of a composition has the retry policies of its kind:
    the one list given for all kinds, or else the entry of the given
    dictionary under [repack_model_retry_policies],
    [register_model_retry_policies] or [create_model_retry_policies], and
    none where the dictionary has no such entry or nothing was given. *)
Theorem retry_policies_by_kind n a d rp dn ds :
  well_formed a = true → patchable a = true →
  ∃ self w,
    ModelStep_init n (IsModelStepArguments a) d rp dn ds = Ok (self, w)
    ∧ ∀ s, s ∈ steps self →
        step_retry_policies s
        = match rp with
          | RetryNone => None
          | RetryList l => Some l
          | RetryDict policies =>
              policies !! match s with
                          | Repack _ => "repack_model_retry_policies"
                          | RegisterModel _ => "register_model_retry_policies"
                          | CreateModel _ => "create_model_retry_policies"
                          end
          end.
Proof.
  intros Hwf Hp.
  destruct (ModelStep_init_steps n a d rp dn ds Hwf Hp)
    as (self & cr' & pk' & Hinit & _ & Hsteps).
  exists self, (expected_warnings a). split; [done|].
  rewrite Hsteps.
  intros s [Hs | ->%list_elem_of_singleton]%elem_of_app.
  - apply list_elem_of_fmap in Hs as (r & -> & Hr).
    apply elem_of_expected_repack_steps in Hr as (i & m & _ & ->).
    by destruct rp.
  - destruct (truthy pk'); by destruct rp.
Qed.

(** X4 on the policies of [test_register_model_with_runtime_repack]: no
    entry for the create step, which is not built. *)
Lemma retry_policies_by_kind_witness :
  let throttling := {| exception_types := ["Step.THROTTLING"]; max_attempts := 3 |} in
  let capacity :=
    {| exception_types := ["SageMaker.CAPACITY_ERROR"]; max_attempts := 3 |} in
  ∃ self w,
    ModelStep_init "MyModelStep" (IsModelStepArguments register_args) test_step
      (RetryDict {[ "register_model_retry_policies" := [throttling];
                    "repack_model_retry_policies" := [capacity] ]})
      None None = Ok (self, w)
    ∧ step_retry_policies <$> steps self = [Some [capacity]; Some [throttling]].
Proof.
  intros throttling capacity.
  destruct (retry_policies_by_kind "MyModelStep" register_args test_step
              (RetryDict {[ "register_model_retry_policies" := [throttling];
                            "repack_model_retry_policies" := [capacity] ]})
              None None eq_refl eq_refl)
    as (self & w & Hinit & _).
  exists self, w. split; [exact Hinit|].
  vm_compute in Hinit. injection Hinit as <- _. by vm_compute.
Defined.

(** X5.  Every repack step of a composition runs in the pipeline-building
    session, whatever session its own model holds. *)
Theorem repack_steps_run_in_pipeline_session n a d rp dn ds :
  well_formed a = true → patchable a = true →
  ∃ self w,
    ModelStep_init n (IsModelStepArguments a) d rp dn ds = Ok (self, w)
    ∧ ∀ r, r ∈ repack_steps (steps self) →
           rp_sagemaker_session r = Some PipelineSession.
Proof.
  intros Hwf Hp.
  destruct (ModelStep_init_spec n a d rp dn ds Hwf Hp)
    as (self & fin & Hinit & Hsteps & Hfin & _).
  exists self, (expected_warnings a). split; [done|].
  rewrite Hsteps, repack_steps_app_final by done.
  intros r (i & m & _ & ->)%elem_of_expected_repack_steps.
  apply well_formed_checks in Hwf as [_ Hs%is_PipelineSession_spec].
  cbn [make_repack_step rp_sagemaker_session].
  change (_model (initial n a d rp dn ds)) with (model a).
  by rewrite Hs.
Qed.

(** X5 on a pipeline model whose second model holds no session. *)
Lemma repack_steps_run_in_pipeline_session_witness :
  let orphan :=
    {| model_id := 3; model_name := None; model_sagemaker_session := None;
       model_role := None; model_data := model_data_param;
       entry_point := Some "dummy_script.py"; source_dir := Some "data";
       dependencies := None; model_vpc_config := None |} in
  let a :=
    {| model :=
         IsPipelineModel
           {| models := [sparkml_model; orphan];
              pm_sagemaker_session := Some PipelineSession;
              pm_role := Some "DummyRole";
              pm_vpc_config := None |};
       create_model_package_request :=
         create_model_package_request pipeline_register_args;
       create_model_request := VNone;
       need_runtime_repack := {[ 3 ]} |} in
  ∃ self w,
    ModelStep_init "MyModelStep" (IsModelStepArguments a) None RetryNone None None
    = Ok (self, w)
    ∧ rp_sagemaker_session <$> repack_steps (steps self) = [Some PipelineSession].
Proof.
  intros orphan a.
  destruct (repack_steps_run_in_pipeline_session "MyModelStep" a
              None RetryNone None None eq_refl eq_refl)
    as (self & w & Hinit & _).
  exists self, w. split; [exact Hinit|].
  vm_compute in Hinit. injection Hinit as <- _. by vm_compute.
Defined.

(** X6.  Every repack step of a composition gets the subnets and the
    security groups of the owning model's VPC configuration, and [None]
    for what that configuration does not hold or when there is none; the
    VPC configuration of the step's own model is not looked at. *)
Theorem repack_steps_share_owning_vpc n a d rp dn ds :
  well_formed a = true → patchable a = true →
  ∃ self w,
    ModelStep_init n (IsModelStepArguments a) d rp dn ds = Ok (self, w)
    ∧ ∀ r, r ∈ repack_steps (steps self) →
        rp_subnets r
        = default VNone (vpc_config (model a) ≫= λ v, v !! "Subnets")
        ∧ rp_security_group_ids r
          = default VNone (vpc_config (model a) ≫= λ v, v !! "SecurityGroupIds").
Proof.
  intros Hwf Hp.
  destruct (ModelStep_init_spec n a d rp dn ds Hwf Hp)
    as (self & fin & Hinit & Hsteps & Hfin & _).
  exists self, (expected_warnings a). split; [done|].
  rewrite Hsteps, repack_steps_app_final by done.
  intros r (i & m & _ & ->)%elem_of_expected_repack_steps.
  cbn [make_repack_step rp_subnets rp_security_group_ids].
  by rewrite vpc_settings_lookup.
Qed.

(** X6 on a pipeline model with subnets and no security groups, whose
    models have no VPC configuration of their own. *)
Lemma repack_steps_share_owning_vpc_witness :
  let a :=
    {| model :=
         IsPipelineModel
           {| models := [sparkml_model; unnamed_model];
              pm_sagemaker_session := Some PipelineSession;
              pm_role := Some "DummyRole";
              pm_vpc_config :=
                Some {[ "Subnets" := VList [VStr "subnet-1"] ]} |};
       create_model_package_request :=
         create_model_package_request pipeline_register_args;
       create_model_request := VNone;
       need_runtime_repack := {[ 3 ]} |} in
  ∃ self w,
    ModelStep_init "MyModelStep" (IsModelStepArguments a) None RetryNone None None
    = Ok (self, w)
    ∧ rp_subnets <$> repack_steps (steps self) = [VList [VStr "subnet-1"]]
    ∧ rp_security_group_ids <$> repack_steps (steps self) = [VNone].
Proof.
  intros a.
  destruct (repack_steps_share_owning_vpc "MyModelStep" a
              None RetryNone None None eq_refl eq_refl)
    as (self & w & Hinit & _).
  exists self, w. split; [exact Hinit|].
  vm_compute in Hinit. injection Hinit as <- _. by vm_compute.
Defined.



(** X8.  The constructor logs its one warning exactly when the indicator
    is not empty and the owning model is of neither model class.  For a
    model of a known class nothing is logged, also when the indicator
    names none of its models and no repack step is built. *)
Theorem warning_only_for_unrecognized_model n a d rp dn ds :
  well_formed a = true → patchable a = true →
  ∃ self w,
    ModelStep_init n (IsModelStepArguments a) d rp dn ds = Ok (self, w)
    ∧ (need_runtime_repack a ≠ ∅ → model_list (model a) = None →
       w = ["No models to repack"])
    ∧ (need_runtime_repack a = ∅ ∨ is_Some (model_list (model a)) → w = []).
Proof.
  intros Hwf Hp.
  destruct (ModelStep_init_spec n a d rp dn ds Hwf Hp)
    as (self & fin & Hinit & _).
  exists self, (expected_warnings a). split; [done|].
  unfold expected_warnings.
  destruct (truthy_set (need_runtime_repack a)) eqn:HX.
  - split.
    + intros _ Hml. by destruct (model a).
    + intros [HX'|[ml Hml]].
      * rewrite HX' in HX. by vm_compute in HX.
      * by destruct (model a).
  - apply truthy_set_false in HX. split; [done|done].
Qed.

(** X8 on a model of a known class that the indicator does not name. *)
Lemma warning_only_for_unrecognized_model_witness :
  ∃ self,
    ModelStep_init "MyModelStep" (IsModelStepArguments stale_args)
      test_step RetryNone None None = Ok (self, [])
    ∧ repack_steps (steps self) = [].
Proof.
  destruct (warning_only_for_unrecognized_model "MyModelStep" stale_args
              test_step RetryNone None None eq_refl eq_refl)
    as (self & w & Hinit & _ & Hw).
  rewrite Hw in Hinit by (right; by eexists).
  exists self. split; [exact Hinit|].
  vm_compute in Hinit. injection Hinit as <-. by vm_compute.
Defined.

(** ** When the constructor raises past its checks *)

Section failures.
Implicit Types (self : ModelStep) (a : ModelStepArguments) (m : Model).

Lemma forallb_false_Exists {A} (f : A → bool) (l : list A) :
  forallb f l = false → Exists (λ x, f x = false) l.
Proof.
  induction l as [|x l IH]; simpl; [done|].
  destruct (f x) eqn:Hx; simpl.
  - intros Hl. right. by apply IH.
  - intros _. by left.
Qed.

(** A patch that went through found a dictionary at its container. *)
Lemma update_path_set_is_dict p v r r' :
  update_path p (set_ModelDataUrl v) r = Ok r' →
  is_dict (lookup_path p r) = true.
Proof.
  intros Hup.
  destruct (update_path_target _ _ _ _ (set_ModelDataUrl_str v) Hup)
    as (c & c' & -> & Hset & _).
  by destruct c.
Qed.

Lemma patch_container_fails self st cr pk i v :
  has_container (with_args (step_args self) cr pk) i = false →
  (is_None cr = false → pk = VNone) →
  ∃ e, patch_container (evolved self st cr pk) i v = Raise e.
Proof.
  intros Hhas Hinv. unfold has_container, matched_container, pending_request in Hhas.
  cbn [create_model_request create_model_package_request with_args model] in Hhas.
  unfold patch_container.
  change (_create_model_args (evolved self st cr pk)) with cr.
  change (_model (evolved self st cr pk)) with (model (step_args self)).
  cbn [step_args evolved create_model_request create_model_package_request with_args].
  destruct (truthy cr) eqn:Htr.
  - assert (is_None cr = false) as Hn by (by destruct cr).
    rewrite Hn in Hhas.
    destruct (model (step_args self)); cbn [is_PipelineModel].
    all: destruct (update_path _ _ cr) as [r'|e] eqn:Hup; [|by eexists].
    all: apply update_path_set_is_dict in Hup; congruence.
  - destruct (is_None cr) eqn:Hn.
    + destruct (update_path _ _ pk) as [r'|e] eqn:Hup; [|by eexists].
      apply update_path_set_is_dict in Hup. congruence.
    + rewrite (Hinv eq_refl). by eexists.
Qed.

Lemma has_container_patched_false a i j v r' :
  update_path (matched_container a i) (set_ModelDataUrl v)
    (pending_request a) = Ok r' →
  has_container a j = false → has_container (patched a r') j = false.
Proof.
  intros Hup Hj.
  destruct (matched_container_cons a i) as (s & p & Hp).
  assert (is_None r' = false) as Hr'
      by (rewrite Hp in Hup; by eapply update_path_not_None).
  unfold has_container in *.
  rewrite matched_container_patched, pending_request_patched by done.
  destruct (matched_container_rel a i j) as [Heq|Hdiv].
  - apply update_path_set_is_dict in Hup. rewrite Heq in Hup. congruence.
  - by rewrite (update_path_diverge _ _ _ _ _ Hdiv Hup).
Qed.

(** The loop raises as soon as one named constituent has no container
    dictionary in the pending request. *)
Lemma repack_loop_fails self sn sg ml : ∀ i st cr pk,
  Exists (λ im, has_container (with_args (step_args self) cr pk) im.1 = false)
         (flagged_from (need_runtime_repack (step_args self)) i ml) →
  (is_None cr = false → pk = VNone) →
  ∃ e, repack_loop (evolved self st cr pk) sn sg i ml = Raise e.
Proof.
  induction ml as [|m ml IH]; intros i st cr pk Hex Hinv.
  - by apply Exists_nil in Hex.
  - rewrite flagged_from_cons in Hex.
    cbn [repack_loop]. unfold repack_iteration.
    rewrite runtime_repack_flg_spec.
    change (_need_runtime_repack (evolved self st cr pk))
      with (need_runtime_repack (step_args self)).
    destruct (decide (model_id m ∈ need_runtime_repack (step_args self)))
      as [Hin|Hin].
    + rewrite (bool_decide_eq_true_2 _ Hin).
      set (a0 := with_args (step_args self) cr pk) in *.
      set (s := make_repack_step (evolved self st cr pk) sn sg i m).
      change (append_step (evolved self st cr pk) (Repack s))
        with (evolved self (st ++ [Repack s]) cr pk).
      destruct (has_container a0 i) eqn:Hi.
      * destruct (patch_container_spec self (st ++ [Repack s]) cr pk i
                    (S3ModelArtifacts s) Hi) as (r' & Hup & ->).
        fold a0 in Hup |- *. cbn [mbind result_bind].
        apply Exists_cons in Hex as [Hhd|Htl]; [simpl in Hhd; congruence|].
        apply IH.
        -- subst a0. rewrite with_args_patched.
           eapply Exists_impl; [exact Htl|]. intros im.
           by apply has_container_patched_false with (i := i) (v := S3ModelArtifacts s).
        -- unfold patched. subst a0.
           cbn [create_model_request create_model_package_request with_args].
           destruct (is_None cr) eqn:Hn; cbn [create_model_request
             create_model_package_request with_args].
           ++ intros ?. congruence.
           ++ intros _. by apply Hinv.
      * destruct (patch_container_fails self (st ++ [Repack s]) cr pk i
                    (S3ModelArtifacts s) Hi Hinv) as (e & ->).
        by exists e.
    + rewrite (bool_decide_eq_false_2 _ Hin).
      cbn [mbind result_bind mret result_ret]. by apply IH.
Qed.

End failures.

(** X10.  Take a request that passes the three checks, whose one request
    is a dictionary with content, and whose named constituents all have an
    entry point.  It is composed exactly when the pending request holds a
    container dictionary for every constituent the indicator names;
    otherwise the constructor raises an error of looking up or assigning
    a container, and builds no collection. *)
Theorem composition_succeeds_iff_patchable n a d rp dn ds :
  well_formed a = true → steps_constructible a = true →
  ((∃ self w, ModelStep_init n (IsModelStepArguments a) d rp dn ds = Ok (self, w))
   ↔ patchable a = true)
  ∧ (patchable a = false →
     ∃ e, ModelStep_init n (IsModelStepArguments a) d rp dn ds = Raise e
          ∧ lookup_error e).
Proof.
  intros Hwf _.
  assert (patchable a = false →
          ∃ e, ModelStep_init n (IsModelStepArguments a) d rp dn ds = Raise e)
    as Hfail.
  { intros Hnp. pose proof Hwf as [Hxor Hsess]%well_formed_checks.
    unfold ModelStep_init. rewrite Hxor, (getattr_PipelineSession _ Hsess).
    cbn [negb mbind result_bind]. rewrite Hsess. cbn [negb].
    change (_need_runtime_repack (initial n a d rp dn ds))
      with (need_runtime_repack a).
    unfold patchable, flagged, constituents in Hnp.
    destruct (truthy_set (need_runtime_repack a)) eqn:HX.
    - unfold _append_repack_model_step.
      change (_model (initial n a d rp dn ds)) with (model a).
      destruct (model_list (model a)) as [ml|] eqn:Hml; [|done].
      cbn [default from_option id] in Hnp.
      destruct (vpc_settings (model a)) as [sg sn].
      destruct (repack_loop_fails (initial n a d rp dn ds) sn sg ml 0 []
                  (create_model_request a) (create_model_package_request a))
        as (e & He).
      + change (step_args (initial n a d rp dn ds)) with a.
        rewrite with_args_id. by apply forallb_false_Exists.
      + intros Hn. rewrite Hn in Hxor. simpl in Hxor.
        by apply is_None_spec.
      + rewrite <-evolved_initial in He. rewrite He. by exists e.
    - apply truthy_set_false in HX. by rewrite HX, flagged_from_empty in Hnp. }
  split; [split|].
  - intros (self & w & Hinit).
    destruct (patchable a) eqn:Hp; [done|].
    destruct (Hfail eq_refl) as (e & He). congruence.
  - intros Hp.
    destruct (ModelStep_init_spec n a d rp dn ds Hwf Hp)
      as (self & fin & Hinit & _).
    by exists self, (expected_warnings a).
  - intros Hnp. destruct (Hfail Hnp) as (e & He). exists e.
    split; [done|]. by eapply ModelStep_init_error.
Qed.

(** X10 on a request with its containers and on one without. *)
Lemma composition_succeeds_iff_patchable_witness :
  (∃ self w,
     ModelStep_init "MyModelStep" (IsModelStepArguments pipeline_create_args)
       None RetryNone None None = Ok (self, w))
  ∧ ∃ e, ModelStep_init "MyModelStep" (IsModelStepArguments bare_create_args)
           None RetryNone None None = Raise e
         ∧ lookup_error e.
Proof.
  split.
  - apply (proj1 (composition_succeeds_iff_patchable "MyModelStep"
             pipeline_create_args None RetryNone None None eq_refl eq_refl)).
    by vm_compute.
  - apply (proj2 (composition_succeeds_iff_patchable "MyModelStep"
             bare_create_args None RetryNone None None eq_refl eq_refl)).
    by vm_compute.
Defined.

Section first_failure.
Implicit Types (self : ModelStep) (a : ModelStepArguments) (m : Model).

End first_failure.





(** ** The request the last step is built from *)

Section final_request.
Implicit Types (self : ModelStep) (a : ModelStepArguments) (m : Model).

(** The create or register step is built from the pending request as the
    repack stage left it. *)
Lemma ModelStep_init_final_request n a d rp dn ds :
  well_formed a = true → patchable a = true →
  truthy (pending_request a) = true →
  ∃ self fin r,
    ModelStep_init n (IsModelStepArguments a) d rp dn ds
    = Ok (self, expected_warnings a)
    ∧ last (steps self) = Some fin
    ∧ request_step fin = Some r
    ∧ st_step_args r = pending_request (step_args self)
    ∧ (∀ q,
         Forall (λ im, diverge (ModelDataUrl_path a im.1) q = true)
                (flagged (need_runtime_repack a) (constituents (model a))) →
         lookup_path q (st_step_args r) = lookup_path q (pending_request a))
    ∧ Forall (λ im,
                lookup_path (ModelDataUrl_path a im.1) (st_step_args r)
                = Ok (repack_reference n im.1 im.2))
             (flagged (need_runtime_repack a) (constituents (model a))).
Proof.
  intros Hwf Hp Ht.
  destruct (ModelStep_init_wiring n a d rp dn ds Hwf Hp)
    as (cr' & pk' & Hinit & Hn & Htr & _ & HF & HT & _).
  rewrite with_final_step_evolved in Hinit.
  assert (pending_request (with_args a cr' pk')
          = if truthy pk' then pk' else cr') as Hpend.
  { unfold pending_request.
    cbn [create_model_request create_model_package_request with_args].
    rewrite Hn, Htr. unfold pending_request in Ht.
    apply well_formed_checks in Hwf as [Hxor _].
    destruct (is_None (create_model_request a)) eqn:Hc.
    - by rewrite Ht.
    - simpl in Hxor. apply is_None_spec in Hxor. by rewrite Hxor. }
  rewrite Hpend in HF, HT.
  change (step_args (initial n a d rp dn ds)) with a in Hinit.
  destruct (truthy pk') eqn:Hpk';
    eexists _, _, _; (split; [exact Hinit|]);
    cbn [steps evolved step_args]; rewrite last_snoc;
    (split; [reflexivity|]); (split; [reflexivity|]);
    cbn [st_step_args];
    change (step_args (initial n a d rp dn ds)) with a;
    rewrite Hpend; done.
Qed.
End final_request.

(** X13.  The create or register step of a composition is built from the
    pending request, and in it everything that is not reached through the
    [ModelDataUrl] of the container of a named constituent reads as in the
    request that was given: the other containers, the other fields of the
    patched containers, and every other entry of the request. *)
Theorem final_request_frame n a d rp dn ds :
  well_formed a = true → patchable a = true →
  truthy (pending_request a) = true →
  ∃ self w fin r,
    ModelStep_init n (IsModelStepArguments a) d rp dn ds = Ok (self, w)
    ∧ last (steps self) = Some fin
    ∧ request_step fin = Some r
    ∧ ∀ q,
        (∀ i m, (i, m) ∈ flagged (need_runtime_repack a) (constituents (model a)) →
                diverge (matched_container a i ++ [KStr "ModelDataUrl"]) q = true) →
        lookup_path q (st_step_args r) = lookup_path q (pending_request a).
Proof.
  intros Hwf Hp Ht.
  destruct (ModelStep_init_final_request n a d rp dn ds Hwf Hp Ht)
    as (self & fin & r & Hinit & Hlast & Hr & _ & HF & _).
  exists self, (expected_warnings a), fin, r.
  split; [done|]. split; [done|]. split; [done|].
  intros q Hq. apply HF, Forall_forall. intros [i m] Him. by eapply Hq.
Qed.

(** X13 on the request of
    [test_register_pipeline_model_with_runtime_repack]: the first
    container reaches the register step as it was given. *)
Lemma final_request_frame_witness :
  ∃ self w fin r,
    ModelStep_init "MyModelStep" (IsModelStepArguments pipeline_register_args)
      None RetryNone None None = Ok (self, w)
    ∧ last (steps self) = Some fin
    ∧ request_step fin = Some r
    ∧ lookup_path [KStr "InferenceSpecification"; KStr "Containers"; KIdx 0]
        (st_step_args r)
      = Ok (container "sparkml").
Proof.
  destruct (final_request_frame "MyModelStep" pipeline_register_args
              None RetryNone None None eq_refl eq_refl eq_refl)
    as (self & w & fin & r & Hinit & Hlast & Hr & HF).
  exists self, w, fin, r. split; [exact Hinit|].
  split; [exact Hlast|]. split; [exact Hr|].
  rewrite HF; [by vm_compute|].
  intros i m Him. vm_compute in Him.
  apply elem_of_cons in Him as [[= -> _]|[]%elem_of_nil]. by vm_compute.
Defined.

(** X14.  In the request the create or register step of a composition is
    built from, the [ModelDataUrl] of the container of every named
    constituent is the reference to the output of the repack step built
    for that very constituent. *)
Theorem final_request_wiring n a d rp dn ds :
  well_formed a = true → patchable a = true →
  truthy (pending_request a) = true →
  ∃ self w fin r,
    ModelStep_init n (IsModelStepArguments a) d rp dn ds = Ok (self, w)
    ∧ last (steps self) = Some fin
    ∧ request_step fin = Some r
    ∧ ∀ i m x,
        (i, m) ∈ flagged (need_runtime_repack a) (constituents (model a)) →
        disambiguator i m x →
        lookup_path (matched_container a i ++ [KStr "ModelDataUrl"])
                    (st_step_args r)
        = Ok (VProp ("Steps." +:+ (n +:+ "-RepackModel-" +:+ x)
                     +:+ ".ModelArtifacts.S3ModelArtifacts")).
Proof.
  intros Hwf Hp Ht.
  destruct (ModelStep_init_final_request n a d rp dn ds Hwf Hp Ht)
    as (self & fin & r & Hinit & Hlast & Hr & _ & _ & HT).
  exists self, (expected_warnings a), fin, r.
  split; [done|]. split; [done|]. split; [done|].
  intros i m x Him Hx.
  rewrite Forall_forall in HT. pose proof (HT _ Him) as Hw.
  cbv beta in Hw. cbn [fst snd] in Hw. unfold ModelDataUrl_path in Hw.
  rewrite Hw. unfold repack_reference.
  assert (name_base m i = x) as ->; [|reflexivity].
  pose proof (name_base_disambiguator i m) as Hnb.
  unfold disambiguator in *. destruct (model_name m) as [s|]; [|congruence].
  case_decide; congruence.
Qed.

(** X14 on the request of
    [test_create_pipeline_model_with_runtime_repack]. *)
Lemma final_request_wiring_witness :
  ∃ self w fin r,
    ModelStep_init "MyModelStep" (IsModelStepArguments pipeline_create_args)
      None RetryNone None None = Ok (self, w)
    ∧ last (steps self) = Some fin
    ∧ request_step fin = Some r
    ∧ lookup_path [KStr "Containers"; KIdx 1; KStr "ModelDataUrl"] (st_step_args r)
      = Ok (VProp "Steps.MyModelStep-RepackModel-MyModel.ModelArtifacts.S3ModelArtifacts").
Proof.
  destruct (final_request_wiring "MyModelStep" pipeline_create_args
              None RetryNone None None eq_refl eq_refl eq_refl)
    as (self & w & fin & r & Hinit & Hlast & Hr & HT).
  exists self, w, fin, r. split; [exact Hinit|].
  split; [exact Hlast|]. split; [exact Hr|].
  assert ((1, my_model)
          ∈ flagged (need_runtime_repack pipeline_create_args)
              (constituents (model pipeline_create_args))) as Him
    by (vm_compute; left).
  assert (disambiguator 1 my_model "MyModel") as Hx
    by (vm_compute; reflexivity).
  exact (HT 1 my_model "MyModel" Him Hx).
Defined.

(** ** Composing again from the patched arguments *)

Section stable.
Implicit Types (self : ModelStep) (a : ModelStepArguments) (m : Model).
Implicit Types (v x : pyval) (p : list key).

Lemma put_getitem_id v k x : getitem v k = Ok x → put v k x = v.
Proof.
  destruct v, k; simpl; try done.
  - destruct (l !! i) eqn:Hl; [|done]. intros [= ->].
    by rewrite list_insert_id.
  - destruct (d !! s) eqn:Hd; [|done]. intros [= ->].
    by rewrite insert_id.
Qed.

(** Assigning what is there already changes nothing. *)
Lemma update_path_id p (s : string) x v (dd : gmap string pyval) :
  lookup_path p v = Ok (VDict dd) → dd !! s = Some x →
  update_path p (λ c, setitem c s x) v = Ok v.
Proof.
  intros Hl Hs. revert v Hl. induction p as [|k p IH]; intros v; simpl.
  - intros [= ->]. simpl. by rewrite insert_id.
  - intros (y & Hy & Hl)%bind_Ok. rewrite Hy. simpl.
    rewrite (IH _ Hl). simpl. by rewrite (put_getitem_id _ _ _ Hy).
Qed.

Lemma lookup_path_field p (s : string) v x :
  lookup_path (p ++ [KStr s]) v = Ok x →
  ∃ dd, lookup_path p v = Ok (VDict dd) ∧ dd !! s = Some x.
Proof.
  rewrite lookup_path_app. intros (c & Hc & Hx)%bind_Ok. simpl in Hx.
  destruct c as [| | | | | |dd]; try done.
  exists dd. split; [done|].
  cbn [getitem] in Hx.
  destruct (dd !! s) as [y|]; simpl in Hx; by simplify_eq.
Qed.

(** On requests that hold the references already, the loop builds its
    steps and leaves the requests as they are. *)
Lemma repack_loop_stable self sn sg ml : ∀ i st cr pk,
  Forall (λ im,
            lookup_path
              (ModelDataUrl_path (with_args (step_args self) cr pk) im.1)
              (pending_request (with_args (step_args self) cr pk))
            = Ok (S3ModelArtifacts (make_repack_step self sn sg im.1 im.2)))
         (flagged_from (need_runtime_repack (step_args self)) i ml) →
  repack_loop (evolved self st cr pk) sn sg i ml
  = Ok (evolved self
          (st ++ ((λ im, Repack (make_repack_step self sn sg im.1 im.2))
                    <$> flagged_from (need_runtime_repack (step_args self)) i ml))
          cr pk).
Proof.
  induction ml as [|m ml IH]; intros i st cr pk Hall.
  - simpl. by rewrite app_nil_r.
  - rewrite flagged_from_cons in Hall |- *.
    cbn [repack_loop]. unfold repack_iteration.
    rewrite runtime_repack_flg_spec.
    change (_need_runtime_repack (evolved self st cr pk))
      with (need_runtime_repack (step_args self)).
    destruct (decide (model_id m ∈ need_runtime_repack (step_args self)))
      as [Hin|Hin].
    + rewrite (bool_decide_eq_true_2 _ Hin).
      apply Forall_cons in Hall as [Hi Hall]. cbn [fst snd] in Hi.
      set (a0 := with_args (step_args self) cr pk) in *.
      set (s := make_repack_step (evolved self st cr pk) sn sg i m).
      change (append_step (evolved self st cr pk) (Repack s))
        with (evolved self (st ++ [Repack s]) cr pk).
      apply lookup_path_field in Hi as (dd & Hdd & Hurl).
      assert (has_container a0 i = true) as Hhas
          by (unfold has_container; by rewrite Hdd).
      destruct (patch_container_spec self (st ++ [Repack s]) cr pk i
                  (S3ModelArtifacts s) Hhas) as (r' & Hup & ->).
      fold a0 in Hup |- *.
      assert (r' = pending_request a0) as ->.
      { pose proof (update_path_id _ _ _ _ _ Hdd Hurl) as Hid.
        unfold set_ModelDataUrl in Hup.
        change (S3ModelArtifacts (make_repack_step self sn sg i m))
          with (S3ModelArtifacts s) in Hid.
        rewrite Hid in Hup. by injection Hup. }
      assert (create_model_request (patched a0 (pending_request a0)) = cr
              ∧ create_model_package_request (patched a0 (pending_request a0)) = pk)
        as [-> ->].
      { unfold patched, pending_request. subst a0.
        cbn [create_model_request create_model_package_request with_args].
        by destruct (is_None cr). }
      cbn [mbind result_bind]. rewrite IH by done.
      by rewrite <-(assoc_L (++)).
    + rewrite (bool_decide_eq_false_2 _ Hin).
      cbn [mbind result_bind mret result_ret]. by apply IH.
Qed.

Lemma ModelDataUrl_path_with_args a cr' pk' j :
  is_None cr' = is_None (create_model_request a) →
  ModelDataUrl_path (with_args a cr' pk') j = ModelDataUrl_path a j.
Proof.
  intros Hn. unfold ModelDataUrl_path, matched_container.
  cbn [create_model_request with_args model]. by rewrite Hn.
Qed.
End stable.

(** X15.  Composing once more, under the same name and with the same
    other arguments, from the arguments as a composition has left them
    (the requests are patched in place) gives the same collection again
    and leaves the arguments as they are. *)
Theorem recomposition_is_stable n a d rp dn ds self w :
  well_formed a = true → patchable a = true →
  ModelStep_init n (IsModelStepArguments a) d rp dn ds = Ok (self, w) →
  ModelStep_init n (IsModelStepArguments (step_args self)) d rp dn ds
  = Ok (self, w).
Proof.
  intros Hwf Hp Hinit.
  destruct (ModelStep_init_wiring n a d rp dn ds Hwf Hp)
    as (cr' & pk' & Hinit' & Hn & Ht & Hsame & _ & HT & Hpk).
  rewrite Hinit in Hinit'. injection Hinit' as -> ->.
  rewrite with_final_step_evolved.
  cbn [step_args evolved].
  change (step_args (initial n a d rp dn ds)) with a.
  rewrite <-with_final_step_evolved.
  pose proof Hwf as [Hxor Hsess]%well_formed_checks.
  assert (is_None pk' = is_None (create_model_package_request a)) as Hnpk.
  { destruct (is_None (create_model_request a)) eqn:Hc; [|by rewrite Hpk].
    destruct (flagged (need_runtime_repack a) (constituents (model a)))
      as [|[i m] fl] eqn:Hfl; [by destruct (Hsame eq_refl) as [_ ->]|].
    destruct (is_None (create_model_package_request a)) eqn:Hpkn; [done|].
    assert (truthy pk' = true) as Htr; [|by destruct pk'].
    rewrite Ht. unfold patchable in Hp. rewrite Hfl in Hp.
    apply andb_true_iff in Hp as [Hhas _]. cbn [fst] in Hhas.
    unfold has_container, is_dict in Hhas.
    destruct (matched_container_cons a i) as (s0 & p0 & Hp0).
    rewrite Hp0 in Hhas.
    destruct (lookup_path _ _) as [c|] eqn:Hl; [|done].
    apply lookup_path_truthy in Hl. unfold pending_request in Hl.
    by rewrite Hc in Hl. }
  unfold ModelStep_init.
  cbn [create_model_request create_model_package_request with_args model].
  rewrite Hn, Hnpk, Hxor, (getattr_PipelineSession _ Hsess).
  cbn [negb mbind result_bind]. rewrite Hsess. cbn [negb].
  change (_need_runtime_repack (initial n (with_args a cr' pk') d rp dn ds))
    with (need_runtime_repack a).
  unfold expected_warnings, expected_repack_steps, flagged, constituents in *.
  destruct (truthy_set (need_runtime_repack a)) eqn:HX.
  - unfold _append_repack_model_step.
    change (_model (initial n (with_args a cr' pk') d rp dn ds)) with (model a).
    destruct (model_list (model a)) as [ml|] eqn:Hml.
    + destruct (vpc_settings (model a)) as [sg sn] eqn:Hvpc.
      cbn [default from_option id fst snd] in HT |- *.
      rewrite (evolved_initial n (with_args a cr' pk') d rp dn ds).
      cbn [create_model_request create_model_package_request with_args].
      rewrite (repack_loop_stable _ sn sg ml 0 [] cr' pk').
      * cbn [mbind result_bind mret result_ret app].
        rewrite <-list_fmap_compose.
        assert (expected_warnings_Some :
                  match model a with
                  | OtherObject _ | ObjectWithoutSession =>
                      ["No models to repack"]
                  | _ => []
                  end = ([] : list string)) by (by destruct (model a)).
        rewrite expected_warnings_Some. reflexivity.
      * eapply Forall_impl; [exact HT|]. intros [i m]. cbn [fst snd].
        change (step_args (initial n (with_args a cr' pk') d rp dn ds))
          with (with_args a cr' pk').
        intros Hw.
        change (with_args (with_args a cr' pk') cr' pk') with (with_args a cr' pk').
        by rewrite ModelDataUrl_path_with_args.
    + assert (match model a with
              | OtherObject _ | ObjectWithoutSession => ["No models to repack"]
              | _ => []
              end = ["No models to repack"]) as -> by (by destruct (model a)).
      cbn [default from_option mbind result_bind mret result_ret].
      unfold flagged_from. cbn [enumerate]. rewrite filter_nil.
      cbn [fmap list_fmap].
      rewrite (evolved_initial n (with_args a cr' pk') d rp dn ds) at 1.
      reflexivity.
  - cbn [mbind result_bind mret result_ret].
    apply truthy_set_false in HX. rewrite HX, flagged_from_empty.
    rewrite (evolved_initial n (with_args a cr' pk') d rp dn ds) at 1.
    reflexivity.
Qed.

(** X15 on the request of [test_create_model_with_runtime_repack]. *)
Lemma recomposition_is_stable_witness :
  ∃ self w,
    ModelStep_init "MyModelStep" (IsModelStepArguments create_args)
      test_step RetryNone None None = Ok (self, w)
    ∧ ModelStep_init "MyModelStep" (IsModelStepArguments (step_args self))
        test_step RetryNone None None = Ok (self, w).
Proof.
  destruct (ModelStep_init_spec "MyModelStep" create_args test_step RetryNone
              None None eq_refl eq_refl) as (self & fin & Hinit & _).
  exists self, (expected_warnings create_args). split; [exact Hinit|].
  exact (recomposition_is_stable "MyModelStep" create_args test_step RetryNone
           None None self _ eq_refl eq_refl Hinit).
Defined.

(** ** The names of the steps *)

Section names.
Implicit Types (self : ModelStep) (a : ModelStepArguments) (m : Model).
Implicit Types (n x y : string).

Lemma append_inj_l n x y : n +:+ x = n +:+ y → x = y.
Proof.
  induction n as [|c n IH]; simpl; [done|]. intros [= H]. by apply IH.
Qed.

Lemma str_of_nat_inj i j : str_of_nat i = str_of_nat j → i = j.
Proof.
  unfold str_of_nat. intros H.
  apply (f_equal NilEmpty.uint_of_string) in H.
  rewrite !NilEmpty.usu in H. injection H as H.
  apply (f_equal Nat.of_uint) in H. by rewrite !Unsigned.of_to in H.
Qed.

Lemma repack_name_inj n x y :
  n +:+ "-RepackModel-" +:+ x = n +:+ "-RepackModel-" +:+ y → x = y.
Proof. intros H%append_inj_l. by injection H. Qed.

Lemma repack_name_not_final n x (b : bool) :
  n +:+ "-RepackModel-" +:+ x
  ≠ n +:+ (if b then "-RegisterModel" else "-CreateModel").
Proof. intros H%append_inj_l. by destruct b. Qed.

(** The names of the steps of a composition. *)
Lemma ModelStep_init_names n a d rp dn ds :
  well_formed a = true → patchable a = true →
  ∃ self,
    ModelStep_init n (IsModelStepArguments a) d rp dn ds
    = Ok (self, expected_warnings a)
    ∧ step_name <$> steps self
      = ((λ im, n +:+ "-RepackModel-" +:+ name_base im.2 im.1)
           <$> flagged (need_runtime_repack a) (constituents (model a)))
        ++ [n +:+ (if truthy (create_model_package_request a)
                   then "-RegisterModel" else "-CreateModel")].
Proof.
  intros Hwf Hp.
  destruct (ModelStep_init_spec n a d rp dn ds Hwf Hp)
    as (self & fin & Hinit & Hsteps & _ & _ & _ & _ & Hname).
  exists self. split; [done|].
  rewrite Hsteps, fmap_app. cbn [fmap list_fmap]. rewrite Hname.
  f_equal. unfold expected_repack_steps.
  rewrite <-!list_fmap_compose. by apply list_fmap_ext.
Qed.

(** The names are pairwise different when the texts that tell the repack
    steps apart are. *)
Lemma ModelStep_init_names_NoDup n a d rp dn ds :
  well_formed a = true → patchable a = true →
  NoDup ((λ im, name_base im.2 im.1)
           <$> flagged (need_runtime_repack a) (constituents (model a))) →
  ∃ self w,
    ModelStep_init n (IsModelStepArguments a) d rp dn ds = Ok (self, w)
    ∧ NoDup (step_name <$> steps self).
Proof.
  intros Hwf Hp Hnd.
  destruct (ModelStep_init_names n a d rp dn ds Hwf Hp) as (self & Hinit & Hnames).
  exists self, (expected_warnings a). split; [done|]. rewrite Hnames.
  apply NoDup_app. split; [|split].
  - assert ((λ im : nat * Model, n +:+ "-RepackModel-" +:+ name_base im.2 im.1)
            <$> flagged (need_runtime_repack a) (constituents (model a))
            = (λ x, n +:+ "-RepackModel-" +:+ x)
                <$> ((λ im : nat * Model, name_base im.2 im.1)
                       <$> flagged (need_runtime_repack a) (constituents (model a))))
      as -> by (by rewrite <-list_fmap_compose).
    apply NoDup_fmap_2; [|done]. intros x y. apply repack_name_inj.
  - intros x ([i m] & -> & _)%list_elem_of_fmap Hx%list_elem_of_singleton.
    by apply repack_name_not_final in Hx.
  - apply NoDup_singleton.
Qed.

Lemma flagged_from_positions X i (ml : list Model) :
  NoDup ((flagged_from X i ml).*1).
Proof.
  revert i. induction ml as [|m ml IH]; intros i.
  - constructor.
  - rewrite flagged_from_cons. case_decide; [|apply IH].
    rewrite fmap_cons. constructor; [|apply IH].
    intros ([j m'] & Hj & Hin%flagged_from_ge)%list_elem_of_fmap.
    simpl in *. lia.
Qed.
End names.



(** A model called ["1"] at position 0 and a nameless model at position 1,
    both to repack: the two repack steps get the same name. *)
Example numeral_name_meets_position :
  let one :=
    {| model_id := 6; model_name := Some "1";
       model_sagemaker_session := Some PipelineSession;
       model_role := None; model_data := model_data_param;
       entry_point := Some "dummy_script.py"; source_dir := Some "data";
       dependencies := None; model_vpc_config := None |} in
  let a :=
    {| model :=
         IsPipelineModel
           {| models := [one; sparkml_model];
              pm_sagemaker_session := Some PipelineSession;
              pm_role := Some "DummyRole";
              pm_vpc_config := None |};
       create_model_package_request := VNone;
       create_model_request := create_model_request pipeline_create_args;
       need_runtime_repack := {[ 6; 2 ]} |} in
  ∃ self w,
    ModelStep_init "MyModelStep" (IsModelStepArguments a) None RetryNone None None
    = Ok (self, w)
    ∧ step_name <$> steps self
      = ["MyModelStep-RepackModel-1"; "MyModelStep-RepackModel-1";
         "MyModelStep-CreateModel"].
Proof. intros one a. eexists _, _. split; by vm_compute. Qed.

(** X17.  When none of the named constituents has a name, the steps of a
    composition have pairwise different names: the repack steps are told
    apart by the positions of their models. *)
Theorem unnamed_models_get_distinct_step_names n a d rp dn ds :
  well_formed a = true → patchable a = true →
  (∀ m, m ∈ constituents (model a) → model_id m ∈ need_runtime_repack a →
        model_name m = None) →
  ∃ self w,
    ModelStep_init n (IsModelStepArguments a) d rp dn ds = Ok (self, w)
    ∧ NoDup (step_name <$> steps self).
Proof.
  intros Hwf Hp Hnone.
  apply ModelStep_init_names_NoDup; [done..|].
  assert (Forall (λ im : nat * Model, model_name im.2 = None)
            (flagged (need_runtime_repack a) (constituents (model a)))) as Hall.
  { apply Forall_forall. intros [i m] [Hin Hm]%list_elem_of_filter.
    simpl in *. apply Hnone; [|done].
    clear -Hm. revert Hm. generalize 0.
    induction (constituents (model a)) as [|m0 ml IH]; intros k; simpl.
    - intros []%elem_of_nil.
    - intros [[= _ ->]|Hm]%elem_of_cons; [by left|]. right. by eapply IH. }
  assert ((λ im : nat * Model, name_base im.2 im.1)
            <$> flagged (need_runtime_repack a) (constituents (model a))
          = str_of_nat
              <$> (flagged (need_runtime_repack a) (constituents (model a))).*1)
    as ->.
  { rewrite <-list_fmap_compose. apply Forall_fmap_ext_1.
    eapply Forall_impl; [exact Hall|]. intros [i m] Hm. simpl in *.
    unfold name_base. by rewrite Hm. }
  apply NoDup_fmap_2; [intros i j; apply str_of_nat_inj|].
  apply flagged_from_positions.
Qed.

(** X17 on the request of
    [test_register_pipeline_model_with_runtime_repack] with both models
    to repack. *)
Lemma unnamed_models_get_distinct_step_names_witness :
  let a :=
    {| model := model pipeline_register_args;
       create_model_package_request :=
         create_model_package_request pipeline_register_args;
       create_model_request := VNone;
       need_runtime_repack := {[ 2; 3 ]} |} in
  ∃ self w,
    ModelStep_init "MyModelStep" (IsModelStepArguments a) None RetryNone None None
    = Ok (self, w)
    ∧ NoDup (step_name <$> steps self).
Proof.
  intros a.
  apply (unnamed_models_get_distinct_step_names "MyModelStep" a
           None RetryNone None None eq_refl eq_refl).
  intros m Hm _. vm_compute in Hm.
  apply elem_of_cons in Hm as [->|Hm]; [done|].
  apply elem_of_cons in Hm as [->|[]%elem_of_nil]. done.
Defined.


